(** * Andromeda kernel: session memory and command loop

    A shallow embedding of [andromeda_kernel.py]: the string operations the
    program applies to its input line, the [Memory] class (anchor, recall,
    map), the [AndromedaKernel.launch] pipeline and the body of the
    interactive loop, followed by the properties of the specification that
    concern them.

    Conventions of the embedding.
    - A Python [str] is a [string]; one character of the model is one code
      point below 256, which is closed under [str.lower].
    - A Python [float] is a binary64 [float] of the kernel ([PrimFloat]).
    - What the program reads from outside (the uuid generator, the clock,
      whether the log file can be opened, the random choice) is an [Env]
      value handed to each iteration of the loop.
    - Printing is recorded as a list of [Event]s, one per [print] call,
      carrying the values the call interpolates. *)

From Stdlib Require Import Floats Ascii.
From stdpp Require Import base option list gmap strings.

Open Scope string_scope.
Set Warnings "-inexact-float".

(** ** Python string operations *)

Module PyStr.

(** [c.lower()] for one code point below 256: the letters A-Z and the
    capital letters of the Latin-1 block (all of 0xC0-0xDE but the
    multiplication sign 0xD7) move up by 32; every other code point is its
    own lower case. *)
Definition lower_char (c : ascii) : ascii :=
  let n := Ascii.nat_of_ascii c in
  if ((65 <=? n) && (n <=? 90))%nat then Ascii.ascii_of_nat (n + 32)
  else if ((192 <=? n) && (n <=? 222) && negb (n =? 215))%nat
       then Ascii.ascii_of_nat (n + 32)
       else c.

(** [s.lower()] *)
Fixpoint lower (s : string) : string :=
  match s with
  | EmptyString => EmptyString
  | String c s' => String (lower_char c) (lower s')
  end.

(** [s.startswith(p)] *)
Definition startswith (s p : string) : bool := String.prefix p s.

(** [sub in s]: [sub] occurs in [s] as a contiguous run of characters. *)
Fixpoint contains (sub s : string) : bool :=
  String.prefix sub s ||
  match s with
  | EmptyString => false
  | String _ s' => contains sub s'
  end.

(** [s.split(sep)] for a separator of one character: the pieces between
    the occurrences of [sep], never an empty list. *)
Fixpoint split (sep : ascii) (s : string) : list string :=
  match s with
  | EmptyString => [EmptyString]
  | String c s' =>
      if Ascii.eqb c sep then EmptyString :: split sep s'
      else match split sep s' with
           | [] => [String c EmptyString]
           | w :: ws => String c w :: ws
           end
  end.

(** [s.split(sep, 1)]: split at the first occurrence of [sep] only. *)
Fixpoint split1 (sep : ascii) (s : string) : list string :=
  match s with
  | EmptyString => [EmptyString]
  | String c s' =>
      if Ascii.eqb c sep then [EmptyString; s']
      else match split1 sep s' with
           | [] => [String c EmptyString]
           | w :: ws => String c w :: ws
           end
  end.

(** [str.isspace] on one code point below 256: TAB, LF, VT, FF, CR, the
    four separators 0x1C-0x1F, the space, NEL (0x85) and the no-break space
    (0xA0). *)
Definition is_space (c : ascii) : bool :=
  let n := Ascii.nat_of_ascii c in
  ((9 <=? n) && (n <=? 13) || (28 <=? n) && (n <=? 32)
   || (n =? 133) || (n =? 160))%nat.

(** [s.lstrip()] *)
Fixpoint lstrip (s : string) : string :=
  match s with
  | EmptyString => EmptyString
  | String c s' => if is_space c then lstrip s' else s
  end.

(** [s.rstrip()] *)
Fixpoint rstrip (s : string) : string :=
  match s with
  | EmptyString => EmptyString
  | String c s' =>
      match rstrip s' with
      | EmptyString => if is_space c then EmptyString else String c EmptyString
      | t => String c t
      end
  end.

(** [s.strip()] *)
Definition strip (s : string) : string := rstrip (lstrip s).

(** [s[:n]] for [n >= 0] *)
Definition take (n : nat) (s : string) : string := String.substring 0 n s.

End PyStr.

(** ** Data model *)

(** The dict that [Memory.anchor] builds: six keys, in this order. *)
Record SessionRecord := {
  r_id : string;
  r_timestamp : string;
  r_goal : string;
  r_module : string;
  r_score : float;
  r_justification : string
}.

(** A value of a record's dict: a [str] or a [float]. *)
Inductive Value :=
| VStr (s : string)
| VFloat (x : float).

(** [record.items()]: keys and values in insertion order. *)
Definition items (r : SessionRecord) : list (string * Value) :=
  [ ("id", VStr (r_id r));
    ("timestamp", VStr (r_timestamp r));
    ("goal", VStr (r_goal r));
    ("module", VStr (r_module r));
    ("score", VFloat (r_score r));
    ("justification", VStr (r_justification r)) ].

(** What [json.dump(obj, f, indent=n)] leaves in a file: the JSON object
    with the members of [obj] in order, laid out with [n] spaces per
    level. The serializer is the standard library's; the model keeps its
    two arguments. *)
Record JsonFile := {
  json_members : list (string * Value);
  json_indent : nat
}.

(** One [print] call (or one helper that only prints), with the values it
    interpolates. *)
Inductive Event :=
| ESense
| ELaunch
| EMode (mode : string)
| EAvatar (persona : string)
| EUnderstand (goal goal_class : string)
| EMatch (justification : string)
| ETutor (module : string) (steps : nat)
| ETrace (goal module : string)
| ESandbox (module : string)
| EAnchor (r : SessionRecord)
| EExport (fn : string)
| EReflect (goal module : string)
| EMutate (module : string) (low : bool)
| ERecallSearch (query : string)
| ERecallHit (r : SessionRecord)
| ERecallNone
| EMapHeader
| EMapRow (date module : string)
| EMapFooter
| EChaos (perturbation : string)
| EPlugin
| EDev (module step : string).

(** The state the program acts on: [andromeda.memory.records], the log
    files of the working directory, and what was printed so far. *)
Record State := {
  records : list SessionRecord;
  files : gmap string JsonFile;
  console : list Event
}.

Definition initial : State :=
  {| records := []; files := ∅; console := [] |}.

(** What one iteration of the loop reads from outside the program. *)
Record Env := {
  uuid4 : string;      (* str(uuid.uuid4()) *)
  now : string;        (* datetime.datetime.now().isoformat() *)
  writable : bool;     (* open(fn, 'w') succeeds *)
  choice : nat         (* the index random.choice draws *)
}.

(** ** State and exceptions *)

Inductive Exn := ValueError | IndexError | OSError.

Inductive Result (A : Type) :=
| Ok (a : A) (s : State)
| Raise (e : Exn) (s : State).
Arguments Ok {A} a s.
Arguments Raise {A} e s.

Definition M (A : Type) : Type := State -> Result A.

#[export] Instance M_ret : MRet M := λ A a s, Ok a s.
#[export] Instance M_bind : MBind M := λ A B f m s,
  match m s with
  | Ok a s' => f a s'
  | Raise e s' => Raise e s'
  end.

Definition raise {A} (e : Exn) : M A := λ s, Raise e s.

Definition state_of {A} (r : Result A) : State :=
  match r with Ok _ s => s | Raise _ s => s end.

(** [print(...)]. The output stream is taken to accept every text: a
    stream that cannot encode or take it is outside the model. *)
Definition print (e : Event) : M unit := λ s,
  Ok tt {| records := records s; files := files s;
           console := console s ++ [e] |}.

(** [for x in l: body(x)] *)
Fixpoint for_each {A} (l : list A) (body : A -> M unit) : M unit :=
  match l with
  | [] => mret tt
  | x :: l' => body x ;; for_each l' body
  end.

(** [l[i]], with Python's negative indices. *)
Definition getitem {A} (l : list A) (i : Z) : M A :=
  let n := Z.of_nat (length l) in
  let j := (if i <? 0 then n + i else i)%Z in
  if (j <? 0)%Z then raise IndexError
  else match l !! Z.to_nat j with
       | Some x => mret x
       | None => raise IndexError
       end.

(** [a, b = it]: exactly two values, or ValueError. *)
Definition unpack2 {A} (l : list A) : M (A * A) :=
  match l with
  | [a; b] => mret (a, b)
  | _ => raise ValueError
  end.

(** [l[-n:]] for [n > 0]: the last [n] elements, all of them when there
    are fewer. *)
Definition last_n {A} (n : nat) (l : list A) : list A :=
  drop (length l - n) l.

(** ** Utilities (cycles 1-14) *)

(** [sense_environment()]: prints what [platform] and the clock report;
    the dict it returns is dropped by its only caller. *)
Definition sense_environment : M unit := print ESense.

Record Parsed := {
  intent : string;
  goal_class : string;
  urgency : string;
  tone : string
}.

(** [llm_understand(prompt)] *)
Definition llm_understand (prompt : string) : Parsed :=
  {| intent := "build educational chatbot";
     goal_class := "tutoring";
     urgency := "medium";
     tone := "logical" |}.

Record Match := {
  primary_module : string;
  backup_module : string;
  score : float;
  justification : string
}.

(** The dict [candidates] of [llm_match], as its items. *)
Definition candidates : list (string * float) :=
  [ ("flow.study", 0.91%float);
    ("quiz.kernel", 0.83%float);
    ("feedback.kernel", 0.76%float) ].

(** [sorted(l, key=lambda x: x[1], reverse=True)]: descending by score,
    equal scores in their original order. *)
Fixpoint insert_desc (x : string * float) (l : list (string * float))
  : list (string * float) :=
  match l with
  | [] => [x]
  | y :: l' => if (x.2 <? y.2)%float then y :: insert_desc x l'
               else x :: y :: l'
  end.

Definition sorted_desc (l : list (string * float)) : list (string * float) :=
  foldr insert_desc [] l.

(** [any(k in prompt.lower() for k in ks)] *)
Definition any_in (ks : list string) (prompt : string) : bool :=
  existsb (λ k, PyStr.contains k (PyStr.lower prompt)) ks.

(** [detect_mode(prompt)] *)
Definition detect_mode (prompt : string) : string :=
  if any_in ["experiment"; "test"] prompt then "@mode.experimental"
  else if any_in ["plan"; "schedule"] prompt then "@mode.planner"
  else if any_in ["debug"; "analyze"] prompt then "@mode.diagnostic"
  else "@mode.default".

(** [avatar_switch(mode)] *)
Definition avatar_switch (mode : string) : string :=
  if String.eqb mode "@mode.experimental" then "The Alchemist"
  else if String.eqb mode "@mode.planner" then "The Architect"
  else if String.eqb mode "@mode.diagnostic" then "The Analyst"
  else if String.eqb mode "@mode.default" then "The Companion"
  else "The Companion".

(** [len(scaffolds.get(module, ["[No preview available]"]))] in
    [tutor_preview]. *)
Definition scaffold_steps (module : string) : nat :=
  if String.eqb module "flow.study" then 4
  else if String.eqb module "quiz.kernel" then 3
  else if String.eqb module "feedback.kernel" then 3
  else 1.

(** [tutor_preview(module)] *)
Definition tutor_preview (module : string) : M unit :=
  print (ETutor module (scaffold_steps module)).

(** [trace_execution(goal, module)] *)
Definition trace_execution (goal module : string) : M unit :=
  print (ETrace goal module).

(** [reflect_outcome(goal, module)] *)
Definition reflect_outcome (goal module : string) : M unit :=
  print (EReflect goal module).

(** [meta_mutate(goal, module, score)] *)
Definition meta_mutate (goal module : string) (score : float) : M unit :=
  print (EMutate module (score <? 0.85)%float).

(** [sandbox_bridge(module)] *)
Definition sandbox_bridge (module : string) : M unit :=
  print (ESandbox module).

(** The name [export_docs] gives the file of a record. *)
Definition log_name (r : SessionRecord) : string :=
  "andromeda_log_" ++ PyStr.take 8 (r_id r) ++ ".json".

(** [open(fn, 'w')] followed by [json.dump(record, f, indent=2)]: OSError
    when the file cannot be opened, else the file holds the dump. A write
    that fails after the file was opened is outside the model. *)
Definition dump_to (env : Env) (fn : string) (r : SessionRecord) : M unit :=
  λ s,
  if writable env then
    Ok tt {| records := records s;
             files := <[fn := {| json_members := items r; json_indent := 2 |}]> (files s);
             console := console s |}
  else Raise OSError s.

(** [export_docs(record)] *)
Definition export_docs (env : Env) (record : SessionRecord) : M unit :=
  let fn := log_name record in
  dump_to env fn record ;;
  print (EExport fn).

(** The row [map_flows] prints for a record: the timestamp up to its
    first 'T', and the module. *)
Definition map_row (r : SessionRecord) : M unit :=
  date ← getitem (PyStr.split "T" (r_timestamp r)) 0;
  print (EMapRow date (r_module r)).

(** [map_flows(records)] *)
Definition map_flows (records : list SessionRecord) : M unit :=
  print EMapHeader ;;
  for_each (last_n 5 records) map_row ;;
  print EMapFooter.

(** The four perturbations [chaos_kernel] chooses from. *)
Definition perturbations : list string :=
  [ "Recursive goal loop"; "Token saturation";
    "quiz.kernel drift"; "reflection overload" ].

(** [chaos_kernel()] *)
Definition chaos_kernel (env : Env) : M unit :=
  p ← getitem perturbations (Z.of_nat (choice env mod length perturbations));
  print (EChaos p).

(** [plugin_install()] *)
Definition plugin_install : M unit := print EPlugin.

(** [edit_scaffold(module, step)] *)
Definition edit_scaffold (module step : string) : M unit :=
  print (EDev module step).

(** ** Memory kernel *)

Module Memory.

(** [self.records] *)
Definition self_records : M (list SessionRecord) := λ s, Ok (records s) s.

(** [self.records.append(r)] *)
Definition append (r : SessionRecord) : M unit := λ s,
  Ok tt {| records := records s ++ [r]; files := files s;
           console := console s |}.

(** The record [anchor] builds. *)
Definition new_record (env : Env) (goal module : string) (score : float)
    (justification : string) : SessionRecord :=
  {| r_id := uuid4 env;
     r_timestamp := now env;
     r_goal := goal; r_module := module;
     r_score := score; r_justification := justification |}.

(** [Memory.anchor(goal, module, score, justification)]. The method has no
    [return] statement: the call evaluates to [None]. *)
Definition anchor (env : Env) (goal module : string) (score : float)
    (justification : string) : M (option SessionRecord) :=
  let r := new_record env goal module score justification in
  append r ;;
  print (EAnchor r) ;;
  export_docs env r ;;
  mret None.

(** The list comprehension of [recall]. *)
Definition matches (query : string) (rs : list SessionRecord)
  : list SessionRecord :=
  List.filter
    (λ r, PyStr.contains (PyStr.lower query) (PyStr.lower (r_goal r))) rs.

(** [Memory.recall(query)] *)
Definition recall (query : string) : M unit :=
  print (ERecallSearch query) ;;
  rs ← self_records;
  let matches := matches query rs in
  for_each matches (λ m, print (ERecallHit m)) ;;
  match matches with
  | [] => print ERecallNone
  | _ :: _ => mret tt
  end.

(** [Memory.map()] *)
Definition map : M unit :=
  rs ← self_records;
  map_flows rs.

End Memory.

(** ** Matching *)

Section Matching.
(** [format(x, '')] of a float inside an f-string, that is [repr(x)]: the
    interpreter's conversion, not code of this program. *)
Variable repr_float : float -> string.

(** [llm_match(goal_class)] *)
Definition llm_match (goal_class : string) : M Match :=
  let sorted_candidates := sorted_desc candidates in
  primary ← getitem sorted_candidates 0;
  backup ← getitem sorted_candidates 1;
  mret {| primary_module := primary.1;
          backup_module := backup.1;
          score := primary.2;
          justification :=
            "Matched " ++ primary.1 ++ " for goal_class '" ++ goal_class
            ++ "' with confidence " ++ repr_float primary.2 |}.

End Matching.

(** ** Kernel core *)

Module AndromedaKernel.

Section Launch.
Variable repr_float : float -> string.

(** The part of [launch] that follows [match = llm_match(goal_class)]:
    the branch on the score and the closing [meta_mutate]. *)
Definition launch_matched (env : Env) (goal : string) (m : Match) : M unit :=
  let score := score m in
  print (EMatch (justification m)) ;;
  (if (0.9 <=? score)%float then
     trace_execution goal (primary_module m) ;;
     sandbox_bridge (primary_module m) ;;
     Memory.anchor env goal (primary_module m) score (justification m) ;;
     reflect_outcome goal (primary_module m)
   else
     tutor_preview (primary_module m) ;;
     trace_execution goal (primary_module m) ;;
     sandbox_bridge (primary_module m) ;;
     Memory.anchor env goal (backup_module m) score (justification m) ;;
     reflect_outcome goal (primary_module m)) ;;
  meta_mutate goal (primary_module m) score.

(** [AndromedaKernel.launch(user_prompt)] *)
Definition launch (env : Env) (user_prompt : string) : M unit :=
  print ELaunch ;;
  sense_environment ;;
  let mode := detect_mode user_prompt in
  print (EMode mode) ;;
  print (EAvatar (avatar_switch mode)) ;;
  let parsed := llm_understand user_prompt in
  let goal := intent parsed in
  let goal_class := goal_class parsed in
  print (EUnderstand goal goal_class) ;;
  m ← llm_match repr_float goal_class;
  launch_matched env goal m.

End Launch.

Definition recall (q : string) : M unit := Memory.recall q.
Definition map : M unit := Memory.map.
Definition chaos (env : Env) : M unit := chaos_kernel env.
Definition plugin : M unit := plugin_install.
Definition dev (module patch : string) : M unit := edit_scaffold module patch.

End AndromedaKernel.

(** ** Entry point *)

(** How one pass through the body of [while True] ends: at its end (the
    loop asks for the next line) or at [break]. *)
Inductive Control := Continue | Break.

(** The router after a line: awaiting input, stopped by [exit], or ended
    by an exception that nothing catches. *)
Inductive Router :=
| Idle (s : State)
| Stopped (s : State)
| Crashed (e : Exn) (s : State).

Definition router_state (r : Router) : State :=
  match r with Idle s | Stopped s | Crashed _ s => s end.

(** The guard of the [dev] branch. *)
Definition is_dev (cmd : string) : bool :=
  PyStr.startswith (PyStr.lower cmd) "dev" && PyStr.contains "|" cmd.

Section EntryPoint.
Variable repr_float : float -> string.

(** The body of the loop for the line [cmd] that [input] returned. *)
Definition loop_body (env : Env) (cmd : string) : M Control :=
  if String.eqb (PyStr.lower cmd) "exit" then mret Break
  else if PyStr.startswith (PyStr.lower cmd) "recall " then
    q ← getitem (PyStr.split1 " " cmd) (-1);
    AndromedaKernel.recall q ;; mret Continue
  else if String.eqb (PyStr.lower cmd) "map" then
    AndromedaKernel.map ;; mret Continue
  else if String.eqb (PyStr.lower cmd) "chaos" then
    AndromedaKernel.chaos env ;; mret Continue
  else if String.eqb (PyStr.lower cmd) "plugin" then
    AndromedaKernel.plugin ;; mret Continue
  else if is_dev cmd then
    '(mod_, patch) ← unpack2 (PyStr.strip <$> PyStr.split "|" cmd);
    module ← getitem (PyStr.split " " mod_) (-1);
    AndromedaKernel.dev module patch ;; mret Continue
  else
    AndromedaKernel.launch repr_float env cmd ;; mret Continue.

(** One line through the router. *)
Definition step (env : Env) (cmd : string) (s : State) : Router :=
  match loop_body env cmd s with
  | Ok Continue s' => Idle s'
  | Ok Break s' => Stopped s'
  | Raise e s' => Crashed e s'
  end.

(** The loop over the lines typed, each with what the iteration reads from
    outside: it goes on while the router is Idle. *)
Fixpoint run (inputs : list (Env * string)) (s : State) : Router :=
  match inputs with
  | [] => Idle s
  | (env, cmd) :: rest =>
      match step env cmd s with
      | Idle s' => run rest s'
      | r => r
      end
  end.

End EntryPoint.

(** The text [repr] gives the three scores of the ranking table (the
    shortest decimal that reads back as the same double); used where a run
    is evaluated on a concrete line. *)
Definition repr_scores (x : float) : string :=
  if (x =? 0.91)%float then "0.91"
  else if (x =? 0.83)%float then "0.83"
  else if (x =? 0.76)%float then "0.76"
  else "<float>".

Definition env0 : Env :=
  {| uuid4 := "3f2b8c1e-9d4a-4f6b-8a2e-5c7d1e0f9b3a";
     now := "2025-06-01T10:15:30.123456";
     writable := true; choice := 0 |}.


(** ** Vocabulary of the statements *)

(** [b] holds [a] as a contiguous run of characters. *)
Definition is_substring (a b : string) : Prop :=
  ∃ u v : string, b = (u ++ a ++ v)%string.

(** The goal of [r] contains [query], letter case apart. *)
Definition goal_matches (query : string) (r : SessionRecord) : Prop :=
  is_substring (PyStr.lower query) (PyStr.lower (r_goal r)).

(** The state [s] after the events [es] were printed. *)
Definition say (s : State) (es : list Event) : State :=
  {| records := records s; files := files s; console := console s ++ es |}.

(** The state [s] after [r] was appended to the records. *)
Definition remember (s : State) (r : SessionRecord) : State :=
  {| records := records s ++ [r]; files := files s; console := console s |}.

(** The state [s] after the dump of [r] was written to its log file. *)
Definition persist (s : State) (r : SessionRecord) : State :=
  {| records := records s;
     files := <[log_name r := {| json_members := items r; json_indent := 2 |}]> (files s);
     console := console s |}.

(** The date column of a row of the flow map. *)
Definition date_of (timestamp : string) : string :=
  default "" (head (PyStr.split "T" timestamp)).

(** The row of the flow map for [r]. *)
Definition row_of (r : SessionRecord) : Event :=
  EMapRow (date_of (r_timestamp r)) (r_module r).

(** What [recall] prints after its heading for the selection [sel]. *)
Definition recall_report (sel : list SessionRecord) : list Event :=
  match sel with
  | [] => [ERecallNone]
  | _ :: _ => ERecallHit <$> sel
  end.

(** The three operations of the store. *)
Inductive StoreOp :=
| OpAnchor (env : Env) (goal module : string) (score : float)
    (justification : string)
| OpRecall (query : string)
| OpMap.

Definition apply_op (op : StoreOp) : M unit :=
  match op with
  | OpAnchor env goal module score justification =>
      Memory.anchor env goal module score justification ;; mret tt
  | OpRecall query => Memory.recall query
  | OpMap => Memory.map
  end.

(** The justification [llm_match] composes for a goal class. *)
Definition justification_for (repr_float : float → string)
    (goal_class : string) : string :=
  ("Matched " ++ "flow.study" ++ " for goal_class '" ++ goal_class
   ++ "' with confidence " ++ repr_float 0.91%float)%string.

(** The record the default pipeline anchors under [env]. *)
Definition anchored (repr_float : float → string) (env : Env)
  : SessionRecord :=
  Memory.new_record env "build educational chatbot" "flow.study" 0.91%float
    (justification_for repr_float "tutoring").

(** What [launch] prints up to and including the [ANCHOR] line. *)
Definition launch_head (repr_float : float → string) (env : Env)
    (user_prompt : string) : list Event :=
  [ ELaunch; ESense;
    EMode (detect_mode user_prompt);
    EAvatar (avatar_switch (detect_mode user_prompt));
    EUnderstand "build educational chatbot" "tutoring";
    EMatch (justification_for repr_float "tutoring");
    ETrace "build educational chatbot" "flow.study";
    ESandbox "flow.study";
    EAnchor (anchored repr_float env) ].

(** What [launch] prints after it. *)
Definition launch_tail (repr_float : float → string) (env : Env)
  : list Event :=
  [ EExport (log_name (anchored repr_float env));
    EReflect "build educational chatbot" "flow.study";
    EMutate "flow.study" false ].

(** The log files mirror the records: every file is the two-space dump of
    a stored record, under the name made from that record's id. *)
Definition files_mirror_records (s : State) : Prop :=
  ∀ fn f, files s !! fn = Some f →
          ∃ r, r ∈ records s ∧ fn = log_name r
               ∧ f = {| json_members := items r; json_indent := 2 |}.

(** The branches of the [if]/[elif] chain of the loop. *)
Inductive Branch :=
| BExit | BRecall | BMap | BChaos | BPlugin | BDev | BDefault.

(** The branch that takes the line [cmd]: the guards in the order of the
    chain, the first that holds. *)
Definition branch_of (cmd : string) : Branch :=
  if String.eqb (PyStr.lower cmd) "exit" then BExit
  else if PyStr.startswith (PyStr.lower cmd) "recall " then BRecall
  else if String.eqb (PyStr.lower cmd) "map" then BMap
  else if String.eqb (PyStr.lower cmd) "chaos" then BChaos
  else if String.eqb (PyStr.lower cmd) "plugin" then BPlugin
  else if is_dev cmd then BDev
  else BDefault.

(** The line is left to the final [else]: the default pipeline. *)
Definition is_default (cmd : string) : bool :=
  match branch_of cmd with BDefault => true | _ => false end.

(** The two-space dump of a record, as a log file holds it. *)
Definition dump_of (r : SessionRecord) : JsonFile :=
  {| json_members := items r; json_indent := 2 |}.

(** What [launch_matched] prints for the match [m] up to and including
    the [ANCHOR] line, and after it. *)
Definition matched_module (m : Match) : string :=
  if (0.9 <=? score m)%float then primary_module m else backup_module m.

Definition matched_record (env : Env) (goal : string) (m : Match)
  : SessionRecord :=
  Memory.new_record env goal (matched_module m) (score m) (justification m).

Definition matched_head (env : Env) (goal : string) (m : Match)
  : list Event :=
  EMatch (justification m)
  :: (if (0.9 <=? score m)%float then []
      else [ETutor (primary_module m) (scaffold_steps (primary_module m))])
  ++ [ ETrace goal (primary_module m); ESandbox (primary_module m);
       EAnchor (matched_record env goal m) ].

Definition matched_tail (env : Env) (goal : string) (m : Match)
  : list Event :=
  [ EExport (log_name (matched_record env goal m));
    EReflect goal (primary_module m);
    EMutate (primary_module m) (score m <? 0.85)%float ].

(** The records the default pipeline anchors for the free-text lines among
    [inputs], each under the readings of its own iteration. *)
Definition anchored_for (repr_float : float → string)
    (inputs : list (Env * string)) : list SessionRecord :=
  (λ i, anchored repr_float i.1)
    <$> List.filter (λ i, is_default i.2) inputs.

(** The two outputs of the branch of [launch] for scores below 0.9 and of
    the low-confidence arm of [meta_mutate]. *)
Definition is_low_score_output (e : Event) : bool :=
  match e with
  | ETutor _ _ | EMutate _ true => true
  | _ => false
  end.

(** Every record has its file, and its id starts with one of [used]. *)
Definition filed (used : list string) (s : State) : Prop :=
  ∀ r, r ∈ records s →
       files s !! log_name r = Some (dump_of r)
       ∧ PyStr.take 8 (r_id r) ∈ used.

(** The capital letters of the alphabet of the model, each with its small
    letter: A-Z, and the capitals 0xC0-0xDE of Latin-1 but the
    multiplication sign 0xD7. *)
Definition case_pairs : list (ascii * ascii) :=
  (λ n, (Ascii.ascii_of_nat n, Ascii.ascii_of_nat (n + 32)))
    <$> (seq 65 26 ++ seq 192 23 ++ seq 216 7)%list.

(** The same character, or the two cases of one letter. *)
Definition same_letter (a b : ascii) : Prop :=
  a = b ∨ (a, b) ∈ case_pairs ∨ (b, a) ∈ case_pairs.

(** The same text, letter case apart. *)
Inductive same_text : string → string → Prop :=
| same_text_nil : same_text "" ""
| same_text_cons (a b : ascii) (s t : string) :
    same_letter a b → same_text s t → same_text (String a s) (String b t).

(** The goal of [r] holds a run of characters that is [query], letter case
    apart. *)
Definition goal_holds (query : string) (r : SessionRecord) : Prop :=
  ∃ u g v : string, r_goal r = (u ++ g ++ v)%string ∧ same_text query g.

(** How often the character [c] occurs in [s]. *)
Fixpoint count_char (c : ascii) (s : string) : nat :=
  match s with
  | EmptyString => 0
  | String d s' => (if Ascii.eqb d c then 1 else 0) + count_char c s'
  end.

(** * Properties *)

Open Scope list_scope.
Open Scope nat_scope.

(** ** Strings *)

Module PyStrFacts.
Import PyStr.

Lemma app_nil (t : string) : ("" ++ t)%string = t.
Proof. reflexivity. Qed.

Lemma app_cons (c : ascii) (p t : string) :
  (String c p ++ t)%string = String c (p ++ t).
Proof. reflexivity. Qed.

Lemma prefix_app (p s : string) :
  String.prefix p s = true ↔ ∃ t : string, s = (p ++ t)%string.
Proof.
  revert s. induction p as [|c p IH]; intros s.
  - replace (String.prefix "" s) with true by (by destruct s).
    split; [intros _; by exists s | done].
  - destruct s as [|d s].
    + split; [done | intros [t Ht]; discriminate].
    + change (String.prefix (String c p) (String d s))
        with (if Ascii.ascii_dec c d then String.prefix p s else false).
      setoid_rewrite app_cons.
      destruct (Ascii.ascii_dec c d) as [->|Hcd].
      * rewrite IH. split; intros [t Ht]; exists t; congruence.
      * split; [done | intros [t Ht]; congruence].
Qed.

Lemma contains_cons (a : string) (c : ascii) (b : string) :
  contains a (String c b) = String.prefix a (String c b) || contains a b.
Proof. reflexivity. Qed.

Lemma contains_substring (a b : string) :
  contains a b = true ↔ is_substring a b.
Proof.
  induction b as [|c b IH].
  - change (contains a "") with (String.prefix a "" || false).
    rewrite orb_false_r, prefix_app. split.
    + intros [t Ht]. by exists EmptyString, t.
    + intros [[|d u] [v Huv]]; [by exists v | discriminate].
  - rewrite contains_cons, orb_true_iff, prefix_app, IH. split.
    + intros [[t Ht]|[u [v Huv]]].
      * by exists EmptyString, t.
      * exists (String c u), v. by rewrite app_cons, <- Huv.
    + intros [[|d u] [v Huv]].
      * left. by exists v.
      * right. exists u, v. rewrite app_cons in Huv. congruence.
Qed.

#[export] Instance is_substring_dec (a b : string) : Decision (is_substring a b).
Proof.
  refine (cast_if (decide (contains a b = true)));
    by rewrite <- contains_substring.
Defined.

Lemma split_cons (sep : ascii) (s : string) :
  ∃ w ws, split sep s = w :: ws.
Proof.
  induction s as [|c s [w [ws IH]]]; simpl; [by eexists _, _ |].
  destruct (Ascii.eqb c sep); [by eexists _, _ |].
  rewrite IH. by eexists _, _.
Qed.

Lemma split1_cons (sep : ascii) (s : string) :
  ∃ w ws, split1 sep s = w :: ws.
Proof.
  induction s as [|c s [w [ws IH]]]; simpl; [by eexists _, _ |].
  destruct (Ascii.eqb c sep); [by eexists _, _ |].
  rewrite IH. by eexists _, _.
Qed.

Lemma lower_length (s : string) : String.length (lower s) = String.length s.
Proof. induction s; simpl; congruence. Qed.

Lemma take_app (n : nat) (s : string) :
  ∃ t : string, s = (take n s ++ t)%string.
Proof.
  unfold take. revert n. induction s as [|c s IH]; intros [|n]; simpl.
  - by exists EmptyString.
  - by exists EmptyString.
  - by exists (String c s).
  - destruct (IH n) as [t Ht]. exists t. by rewrite app_cons, <- Ht.
Qed.

Lemma take_length (n : nat) (s : string) :
  String.length (take n s) = Nat.min n (String.length s).
Proof.
  unfold take. revert n. induction s as [|c s IH]; intros [|n]; simpl; auto.
Qed.

End PyStrFacts.

(** ** The monad *)

Lemma bind_run {A B} (m : M A) (f : A → M B) (s : State) :
  (m ≫= f) s = match m s with Ok a s' => f a s' | Raise e s' => Raise e s' end.
Proof. reflexivity. Qed.

Lemma ret_run {A} (a : A) (s : State) : (mret a : M A) s = Ok a s.
Proof. reflexivity. Qed.

Lemma print_run (e : Event) (s : State) : print e s = Ok tt (say s [e]).
Proof. reflexivity. Qed.

Lemma say_nil (s : State) : say s [] = s.
Proof. destruct s. unfold say. simpl. by rewrite app_nil_r. Qed.

Lemma say_say (s : State) (a b : list Event) :
  say (say s a) b = say s (a ++ b).
Proof. unfold say. simpl. by rewrite app_assoc. Qed.

Lemma for_each_say {A} (l : list A) (body : A → M unit) (f : A → Event) :
  (∀ x s, body x s = Ok tt (say s [f x])) →
  ∀ s, for_each l body s = Ok tt (say s (f <$> l)).
Proof.
  intros Hbody. induction l as [|x l IH]; intros s; simpl.
  - by rewrite say_nil.
  - rewrite bind_run, Hbody, IH, say_say. reflexivity.
Qed.

Lemma getitem_first {A} (x : A) (l : list A) (s : State) :
  getitem (x :: l) 0 s = Ok x s.
Proof. reflexivity. Qed.

Lemma map_row_run (r : SessionRecord) (s : State) :
  map_row r s = Ok tt (say s [row_of r]).
Proof.
  unfold map_row, row_of, date_of.
  destruct (PyStrFacts.split_cons "T" (r_timestamp r)) as [w [ws ->]].
  reflexivity.
Qed.

Lemma map_flows_run (rs : list SessionRecord) (s : State) :
  map_flows rs s
  = Ok tt (say s (EMapHeader :: (row_of <$> last_n 5 rs) ++ [EMapFooter])).
Proof.
  unfold map_flows.
  rewrite bind_run, print_run, bind_run.
  rewrite (for_each_say _ _ row_of) by apply map_row_run.
  rewrite print_run, !say_say. reflexivity.
Qed.

Lemma recall_run (query : string) (s : State) :
  Memory.recall query s
  = Ok tt (say s (ERecallSearch query
                  :: recall_report (Memory.matches query (records s)))).
Proof.
  unfold Memory.recall.
  rewrite bind_run, print_run, bind_run. unfold Memory.self_records at 1.
  rewrite bind_run.
  rewrite (for_each_say _ _ ERecallHit) by (intros; apply print_run).
  change (records (say s [ERecallSearch query])) with (records s).
  unfold recall_report.
  destruct (Memory.matches query (records s)) as [|m ms].
  - rewrite print_run, !say_say. reflexivity.
  - rewrite ret_run. by rewrite say_say.
Qed.

Lemma append_run (r : SessionRecord) (s : State) :
  Memory.append r s = Ok tt (remember s r).
Proof. reflexivity. Qed.

Lemma export_docs_run (env : Env) (r : SessionRecord) (s : State) :
  export_docs env r s
  = if writable env then Ok tt (say (persist s r) [EExport (log_name r)])
    else Raise OSError s.
Proof.
  unfold export_docs. rewrite bind_run. unfold dump_to.
  destruct (writable env); reflexivity.
Qed.

Lemma persist_say (s : State) (es : list Event) (r : SessionRecord) :
  persist (say s es) r = say (persist s r) es.
Proof. reflexivity. Qed.

Lemma remember_say (s : State) (es : list Event) (r : SessionRecord) :
  remember (say s es) r = say (remember s r) es.
Proof. reflexivity. Qed.

Lemma anchor_run (env : Env) (goal module : string) (score : float)
    (justification : string) (s : State) :
  let r := Memory.new_record env goal module score justification in
  Memory.anchor env goal module score justification s
  = if writable env
    then Ok None (say (persist (remember s r) r)
                      [EAnchor r; EExport (log_name r)])
    else Raise OSError (say (remember s r) [EAnchor r]).
Proof.
  intros r. unfold Memory.anchor. fold r.
  rewrite bind_run, append_run, bind_run, print_run, bind_run, export_docs_run.
  destruct (writable env); [|reflexivity].
  by rewrite persist_say, say_say.
Qed.

Lemma anchor_records (env : Env) (goal module : string) (score : float)
    (justification : string) (s : State) :
  records (state_of (Memory.anchor env goal module score justification s))
  = records s ++ [Memory.new_record env goal module score justification].
Proof. rewrite anchor_run. destruct (writable env); reflexivity. Qed.

Lemma map_run (s : State) :
  Memory.map s
  = Ok tt (say s (EMapHeader :: (row_of <$> last_n 5 (records s))
                  ++ [EMapFooter])).
Proof.
  unfold Memory.map. rewrite bind_run. unfold Memory.self_records.
  apply map_flows_run.
Qed.

Lemma string_app_assoc (a b c : string) :
  ((a ++ b) ++ c)%string = (a ++ (b ++ c))%string.
Proof.
  induction a as [|x a IH]; [done |].
  by rewrite !PyStrFacts.app_cons, IH.
Qed.

Lemma lower_app (a b : string) :
  PyStr.lower (a ++ b)%string = (PyStr.lower a ++ PyStr.lower b)%string.
Proof.
  induction a as [|c a IH]; [done |].
  rewrite PyStrFacts.app_cons. simpl. by rewrite IH.
Qed.

(** *** Letter case, stated without [lower] *)

Lemma case_pairs_lower :
  Forall (λ p, PyStr.lower_char p.1 = PyStr.lower_char p.2) case_pairs.
Proof. apply (bool_decide_unpack _). vm_compute. exact I. Qed.

Lemma case_pairs_inj :
  Forall (λ p, Forall (λ q, p.2 = q.2 → p.1 = q.1) case_pairs) case_pairs.
Proof. apply (bool_decide_unpack _). vm_compute. exact I. Qed.

Lemma lower_char_pair (a : ascii) :
  PyStr.lower_char a = a ∨ (a, PyStr.lower_char a) ∈ case_pairs.
Proof.
  destruct a as [[] [] [] [] [] [] [] []];
    first [ by left
          | right; apply (bool_decide_unpack _); vm_compute; exact I ].
Qed.

Lemma same_letter_lower (a b : ascii) :
  same_letter a b ↔ PyStr.lower_char a = PyStr.lower_char b.
Proof.
  pose proof case_pairs_lower as Hlow. rewrite Forall_forall in Hlow.
  split.
  - intros [->|[Hab|Hba]]; [done | |].
    + apply (Hlow (a, b) Hab).
    + symmetry. apply (Hlow (b, a) Hba).
  - intros Heq.
    destruct (lower_char_pair a) as [Ha|Ha], (lower_char_pair b) as [Hb|Hb].
    + left. congruence.
    + right. right. rewrite Ha in Heq. by rewrite Heq.
    + right. left. rewrite Hb in Heq. by rewrite <- Heq.
    + left. pose proof case_pairs_inj as Hinj.
      rewrite Forall_forall in Hinj. specialize (Hinj _ Ha).
      rewrite Forall_forall in Hinj. by apply (Hinj _ Hb).
Qed.

Lemma same_text_lower (a b : string) :
  same_text a b ↔ PyStr.lower a = PyStr.lower b.
Proof.
  split.
  - induction 1 as [|x y s t Hxy _ IH]; [done |]. simpl.
    apply same_letter_lower in Hxy. by rewrite Hxy, IH.
  - revert b. induction a as [|x a IH]; intros [|y b] Heq;
      try discriminate Heq; [constructor |].
    simpl in Heq. injection Heq as Hxy Hab. constructor.
    + by apply same_letter_lower.
    + by apply IH.
Qed.

Lemma lower_app_inv (s x y : string) :
  PyStr.lower s = (x ++ y)%string →
  ∃ a b, s = (a ++ b)%string ∧ PyStr.lower a = x ∧ PyStr.lower b = y.
Proof.
  revert s. induction x as [|c x IH]; intros s Hs.
  - by exists "", s.
  - destruct s as [|d s]; [discriminate Hs |].
    rewrite PyStrFacts.app_cons in Hs. simpl in Hs.
    injection Hs as Hc Hs. destruct (IH s Hs) as (a & b & -> & Ha & Hb).
    exists (String d a), b. simpl. by rewrite Hc, Ha.
Qed.

Lemma goal_matches_holds (query : string) (r : SessionRecord) :
  goal_matches query r ↔ goal_holds query r.
Proof.
  unfold goal_matches, goal_holds, is_substring. split.
  - intros (u' & v' & Hg).
    destruct (lower_app_inv _ _ _ Hg) as (u & w & Hgoal & Hu & Hw).
    destruct (lower_app_inv _ _ _ Hw) as (g & v & -> & Hq & Hv).
    exists u, g, v. split; [done |]. by apply same_text_lower.
  - intros (u & g & v & -> & Hsame). apply same_text_lower in Hsame.
    exists (PyStr.lower u), (PyStr.lower v).
    by rewrite !lower_app, Hsame.
Qed.

(** ** Recall *)

#[export] Instance goal_matches_dec (query : string) (r : SessionRecord) :
  Decision (goal_matches query r) := PyStrFacts.is_substring_dec _ _.

#[export] Instance goal_holds_dec (query : string) (r : SessionRecord) :
  Decision (goal_holds query r).
Proof.
  refine (cast_if (decide (goal_matches query r)));
    by rewrite <- goal_matches_holds.
Defined.

Lemma matches_filter (query : string) (rs : list SessionRecord) :
  Memory.matches query rs = filter (goal_matches query) rs.
Proof.
  unfold Memory.matches. induction rs as [|r rs IH]; [reflexivity |].
  rewrite filter_cons. simpl. rewrite IH.
  destruct (decide (goal_matches query r)) as [Hm|Hm];
    unfold goal_matches in Hm; rewrite <- PyStrFacts.contains_substring in Hm.
  - by rewrite Hm.
  - by apply not_true_is_false in Hm as ->.
Qed.

(** C4. For every store and query, [recall] selects the records whose goal
    contains the query as a substring once both are lower-cased: the
    selection is the store's list filtered by that test (the same records,
    in the same order, as often as they occur), it is what the call prints
    after its heading, the store is left as it was, and the call ends
    normally also when nothing matches, in particular on an empty store.
    The test ignores letter case and nothing else: a record is selected
    exactly when its goal holds a run of characters that equals the query
    up to the case of its letters; so the query [STUDY] selects a record
    whose goal contains [study], and the query [stud_] does not. *)
Theorem recall_selects_matching_goals (query : string) (s : State) :
  let sel := Memory.matches query (records s) in
  sel = filter (goal_matches query) (records s)
  ∧ (∀ r, r ∈ sel ↔ r ∈ records s ∧ goal_matches query r)
  ∧ sel `sublist_of` records s
  ∧ Memory.recall query s
    = Ok tt (say s (ERecallSearch query :: recall_report sel))
  ∧ ((∀ r, r ∈ records s → ¬ goal_matches query r) →
     sel = []
     ∧ Memory.recall query s = Ok tt (say s [ERecallSearch query; ERecallNone]))
  ∧ (records s = [] → sel = [])
  ∧ (∀ r, r ∈ sel ↔ r ∈ records s ∧ goal_holds query r)
  ∧ sel = filter (goal_holds query) (records s)
  ∧ (∀ r, r_goal r = "I want to study for my exam" →
          Memory.matches "STUDY" [r] = [r]
          ∧ Memory.matches "Exam" [r] = [r]
          ∧ Memory.matches "stud_" [r] = []).
Proof.
  intros sel. subst sel. rewrite recall_run, matches_filter.
  split_and!.
  - reflexivity.
  - intros r. rewrite list_elem_of_filter. tauto.
  - apply sublist_filter.
  - reflexivity.
  - intros Hnone.
    assert (filter (goal_matches query) (records s) = []) as ->; [|done].
    induction (records s) as [|r rs IH]; [done |].
    rewrite filter_cons, decide_False by (apply Hnone; left).
    apply IH. intros r' Hr'. apply Hnone. by right.
  - by intros ->.
  - intros r. rewrite list_elem_of_filter, goal_matches_holds. tauto.
  - apply list_filter_iff. intros r. apply goal_matches_holds.
  - intros r Hg. unfold Memory.matches. simpl. by rewrite Hg.
Qed.

(** The query [STUDY] selects a record whose goal contains [study]. *)
Lemma recall_selects_matching_goals_witness :
  let r := {| r_id := "id"; r_timestamp := "2025-06-01T10:15:30";
              r_goal := "I want to study for my exam";
              r_module := "flow.study"; r_score := 0.91%float;
              r_justification := "why" |} in
  let s := {| records := [r]; files := ∅; console := [] |} in
  same_text "STUDY" "study"
  ∧ goal_holds "STUDY" r
  ∧ r ∈ Memory.matches "STUDY" (records s).
Proof.
  intros r s.
  assert (same_text "STUDY" "study") as Hsame.
  { repeat (constructor;
            [right; left; apply (bool_decide_unpack _); vm_compute; exact I
            |]).
    constructor. }
  assert (goal_holds "STUDY" r) as Hholds
    by (exists "I want to ", "study", " for my exam"; by split).
  split_and!; [exact Hsame | exact Hholds |].
  apply (proj1 (proj2 (proj2 (proj2 (proj2 (proj2 (proj2
           (recall_selects_matching_goals "STUDY" s))))))) r).
  split; [by left | exact Hholds].
Defined.

Example recall_ignores_case (r : SessionRecord) :
  r_goal r = "I want to study for my exam" →
  Memory.matches "STUDY" [r] = [r] ∧ Memory.matches "Quiz" [r] = [].
Proof. intros Hg. unfold Memory.matches. simpl. by rewrite Hg. Qed.

(** ** The flow map *)

Lemma last_n_suffix {A} (n : nat) (l : list A) :
  ∃ older, l = older ++ last_n n l.
Proof. exists (take (length l - n) l). unfold last_n. by rewrite take_drop. Qed.

Lemma last_n_length {A} (n : nat) (l : list A) :
  length (last_n n l) = Nat.min n (length l).
Proof. unfold last_n. rewrite length_drop. lia. Qed.

Lemma last_n_all {A} (n : nat) (l : list A) :
  length l ≤ n → last_n n l = l.
Proof.
  intros Hle. unfold last_n. by replace (length l - n) with 0 by lia.
Qed.

Section Map.
Variable repr_float : float → string.

Lemma loop_body_map (env : Env) (cmd : string) :
  PyStr.lower cmd = "map" →
  loop_body repr_float env cmd = (AndromedaKernel.map ;; mret Continue).
Proof. intros Hcmd. unfold loop_body. by rewrite Hcmd. Qed.

Lemma step_map (env : Env) (cmd : string) (s : State) :
  PyStr.lower cmd = "map" →
  step repr_float env cmd s
  = Idle (say s (EMapHeader :: (row_of <$> last_n 5 (records s))
                 ++ [EMapFooter])).
Proof.
  intros Hcmd. unfold step. rewrite loop_body_map by done.
  rewrite bind_run. unfold AndromedaKernel.map. by rewrite map_run.
Qed.

(** C5. For every store, the line [map] prints, between the frame lines,
    one row per record of [records[-5:]] and nothing else, in the order of
    the store: these are the last five records when the store holds five
    or more, and all of them when it holds fewer. The store is left as it
    was and the router stays Idle. *)
Theorem map_renders_last_five (env : Env) (s : State) :
  let shown := last_n 5 (records s) in
  step repr_float env "map" s
  = Idle (say s (EMapHeader :: (row_of <$> shown) ++ [EMapFooter]))
  ∧ Memory.map s
    = Ok tt (say s (EMapHeader :: (row_of <$> shown) ++ [EMapFooter]))
  ∧ (∃ older, records s = older ++ shown)
  ∧ length shown = Nat.min 5 (length (records s))
  ∧ (length (records s) ≤ 5 → shown = records s).
Proof.
  intros shown. subst shown. split_and!.
  - by apply step_map.
  - apply map_run.
  - apply last_n_suffix.
  - apply last_n_length.
  - apply last_n_all.
Qed.

End Map.

(** ** Anchoring and the log files *)

(** C7 (as the code has it). [anchor] builds the record whose id is the
    text of the uuid drawn for the call and whose timestamp is the ISO
    text of the clock, with the goal, module, score and justification it
    was given; it appends the record at the end of the collection and
    prints it; when the log file can be opened it writes the record to
    that one file and the call evaluates to [None], not to the record;
    when the file cannot be opened the call raises OSError after the
    append. An id that no stored record carries keeps the ids of the
    store free of repetition. *)
Theorem anchor_appends_persists_returns_none (env : Env)
    (goal module : string) (score : float) (justification : string)
    (s : State) :
  let r := Memory.new_record env goal module score justification in
  r = {| r_id := uuid4 env; r_timestamp := now env; r_goal := goal;
         r_module := module; r_score := score;
         r_justification := justification |}
  ∧ Memory.anchor env goal module score justification s
    = (if writable env
       then Ok None (say (persist (remember s r) r)
                         [EAnchor r; EExport (log_name r)])
       else Raise OSError (say (remember s r) [EAnchor r]))
  ∧ records (remember s r) = records s ++ [r]
  ∧ files (persist (remember s r) r) !! log_name r
    = Some {| json_members := items r; json_indent := 2 |}
  ∧ (∀ fn, fn ≠ log_name r →
           files (persist (remember s r) r) !! fn = files s !! fn)
  ∧ (uuid4 env ∉ (r_id <$> records s) → NoDup (r_id <$> records s) →
     NoDup (r_id <$> (records s ++ [r]))).
Proof.
  intros r. split_and!.
  - reflexivity.
  - apply anchor_run.
  - reflexivity.
  - apply lookup_insert_eq.
  - intros fn Hfn. by apply lookup_insert_ne.
  - intros Hfresh Hnodup. rewrite fmap_app. apply NoDup_app.
    split_and!; [done | | apply NoDup_singleton].
    intros x Hx Hx'. apply list_elem_of_singleton in Hx'. by subst x.
Qed.

(** ** The store only grows *)

Lemma apply_op_prefix (op : StoreOp) (s : State) :
  records s `prefix_of` records (state_of (apply_op op s)).
Proof.
  destruct op as [env goal module score justification|query|]; simpl.
  - rewrite bind_run, anchor_run.
    destruct (writable env); by apply prefix_app_r.
  - by rewrite recall_run.
  - by rewrite map_run.
Qed.

Lemma apply_ops_prefix (ops : list StoreOp) (s : State) :
  records s `prefix_of` records (state_of (for_each ops apply_op s)).
Proof.
  revert s. induction ops as [|op ops IH]; intros s; simpl; [done |].
  rewrite bind_run. pose proof (apply_op_prefix op s) as Hop.
  destruct (apply_op op s) as [[] s'|e s']; simpl in *; [|done].
  by etrans.
Qed.

(** ** The default pipeline *)

Lemma sorted_candidates : sorted_desc candidates = candidates.
Proof. reflexivity. Qed.

Section Pipeline.
Variable repr_float : float → string.

Lemma llm_match_run (goal_class : string) (s : State) :
  llm_match repr_float goal_class s
  = Ok {| primary_module := "flow.study"; backup_module := "quiz.kernel";
          score := 0.91%float;
          justification := justification_for repr_float goal_class |} s.
Proof. reflexivity. Qed.

Lemma launch_matched_records (env : Env) (goal : string) (m : Match)
    (s : State) :
  records (state_of (AndromedaKernel.launch_matched env goal m s))
  = records s
    ++ [Memory.new_record env goal
          (if (0.9 <=? score m)%float then primary_module m
           else backup_module m)
          (score m) (justification m)].
Proof.
  unfold AndromedaKernel.launch_matched, trace_execution, sandbox_bridge,
    tutor_preview, reflect_outcome, meta_mutate.
  destruct (0.9 <=? score m)%float;
    repeat (rewrite bind_run || rewrite print_run);
    rewrite anchor_run; destruct (writable env); reflexivity.
Qed.

Lemma launch_run (env : Env) (user_prompt : string) (s : State) :
  let r := anchored repr_float env in
  AndromedaKernel.launch repr_float env user_prompt s
  = if writable env
    then Ok tt (say (persist (remember s r) r)
                    (launch_head repr_float env user_prompt
                     ++ launch_tail repr_float env))
    else Raise OSError (say (remember s r)
                            (launch_head repr_float env user_prompt)).
Proof.
  intros r. unfold AndromedaKernel.launch, sense_environment.
  repeat (rewrite bind_run || rewrite print_run).
  rewrite llm_match_run.
  unfold AndromedaKernel.launch_matched, trace_execution, sandbox_bridge,
    reflect_outcome, meta_mutate.
  change (0.9 <=? score _)%float with true. cbv iota.
  repeat (rewrite bind_run || rewrite print_run).
  rewrite anchor_run.
  destruct (writable env); repeat (rewrite bind_run || rewrite print_run).
  - unfold say, persist, remember; simpl. rewrite <- !app_assoc. reflexivity.
  - unfold say, remember; simpl. rewrite <- !app_assoc. reflexivity.
Qed.

End Pipeline.

(** ** The router *)

Lemma getitem_last {A} (l : list A) (x : A) (s : State) :
  last l = Some x → getitem l (-1) s = Ok x s.
Proof.
  intros Hlast. unfold getitem.
  change (-1 <? 0)%Z with true. cbv iota.
  rewrite last_lookup in Hlast.
  assert (0 < length l) by (apply lookup_lt_Some in Hlast; lia).
  destruct (Z.ltb_spec (Z.of_nat (length l) + -1) 0) as [?|_]; [lia |].
  replace (Z.to_nat (Z.of_nat (length l) + -1)) with (pred (length l)) by lia.
  by rewrite Hlast.
Qed.

Section Router.
Variable repr_float : float → string.

Lemma loop_body_default (env : Env) (cmd : string) :
  PyStr.lower cmd ≠ "exit" →
  PyStr.startswith (PyStr.lower cmd) "recall " = false →
  PyStr.lower cmd ≠ "map" →
  PyStr.lower cmd ≠ "chaos" →
  PyStr.lower cmd ≠ "plugin" →
  is_dev cmd = false →
  loop_body repr_float env cmd
  = (AndromedaKernel.launch repr_float env cmd ;; mret Continue).
Proof.
  intros Hexit Hrecall Hmap Hchaos Hplugin Hdev. unfold loop_body.
  apply String.eqb_neq in Hexit, Hmap, Hchaos, Hplugin.
  by rewrite Hexit, Hrecall, Hmap, Hchaos, Hplugin, Hdev.
Qed.

Lemma step_launch (env : Env) (cmd : string) (s : State) :
  loop_body repr_float env cmd
  = (AndromedaKernel.launch repr_float env cmd ;; mret Continue) →
  let r := anchored repr_float env in
  step repr_float env cmd s
  = if writable env
    then Idle (say (persist (remember s r) r)
                   (launch_head repr_float env cmd
                    ++ launch_tail repr_float env))
    else Crashed OSError (say (remember s r)
                              (launch_head repr_float env cmd)).
Proof.
  intros Hbody r. unfold step. rewrite Hbody, bind_run, launch_run.
  by destruct (writable env).
Qed.

Lemma step_launch_records (env : Env) (cmd : string) (s : State) :
  loop_body repr_float env cmd
  = (AndromedaKernel.launch repr_float env cmd ;; mret Continue) →
  records (router_state (step repr_float env cmd s))
  = records s ++ [anchored repr_float env].
Proof.
  intros Hbody. rewrite step_launch by done. by destruct (writable env).
Qed.

Lemma loop_body_dev (env : Env) (cmd : string) :
  is_dev cmd = true →
  loop_body repr_float env cmd
  = ('(mod_, patch) ← unpack2 (PyStr.strip <$> PyStr.split "|" cmd);
     module ← getitem (PyStr.split " " mod_) (-1);
     AndromedaKernel.dev module patch ;; mret Continue).
Proof.
  intros Hdev. unfold loop_body.
  unfold is_dev in Hdev. apply andb_true_iff in Hdev as [Hd Hbar].
  unfold PyStr.startswith in Hd.
  destruct (proj1 (PyStrFacts.prefix_app _ _) Hd) as [t Ht].
  unfold is_dev, PyStr.startswith. rewrite Hd, Hbar, Ht.
  reflexivity.
Qed.

(** A [dev] line with one separator: the stub prints, nothing is stored. *)
Lemma step_dev_one_separator (env : Env) (cmd a b : string) (s : State) :
  is_dev cmd = true →
  PyStr.split "|" cmd = [a; b] →
  ∃ module,
    last (PyStr.split " " (PyStr.strip a)) = Some module
    ∧ step repr_float env cmd s
      = Idle (say s [EDev module (PyStr.strip b)]).
Proof.
  intros Hdev Hsplit.
  destruct (PyStrFacts.split_cons " " (PyStr.strip a)) as [w [ws Hw]].
  assert (is_Some (last (PyStr.split " " (PyStr.strip a)))) as [module Hm].
  { rewrite Hw, last_is_Some. done. }
  exists module. split; [done |].
  unfold step. rewrite loop_body_dev, Hsplit by done. simpl fmap.
  rewrite bind_run. simpl unpack2. rewrite ret_run.
  rewrite bind_run, (getitem_last _ module) by done.
  reflexivity.
Qed.

(** A [dev] line with any other number of pieces: the unpacking fails. *)
Lemma step_dev_other (env : Env) (cmd : string) (s : State) :
  is_dev cmd = true →
  length (PyStr.split "|" cmd) ≠ 2 →
  step repr_float env cmd s = Crashed ValueError s.
Proof.
  intros Hdev Hlen. unfold step. rewrite loop_body_dev by done.
  rewrite bind_run.
  destruct (PyStr.split "|" cmd) as [|a [|b [|c l]]]; simpl in *; done.
Qed.

End Router.

(** ** The claims about the router and the pipeline *)

Section Claims.
Variable repr_float : float → string.

Lemma loop_body_dev_without_separator (env : Env) (cmd : string) :
  PyStr.startswith (PyStr.lower cmd) "dev" = true →
  PyStr.contains "|" cmd = false →
  loop_body repr_float env cmd
  = (AndromedaKernel.launch repr_float env cmd ;; mret Continue).
Proof.
  intros Hd Hbar. unfold PyStr.startswith in Hd.
  destruct (proj1 (PyStrFacts.prefix_app _ _) Hd) as [t Ht].
  apply loop_body_default; unfold is_dev, PyStr.startswith;
    rewrite ?Ht, ?Hbar; try done.
  by rewrite andb_false_r.
Qed.

(** C1 (as the code has it). The line [dev studymod] fails the guard of
    the dev branch, which asks for a '|', and no branch reports a usage
    error: the line is handled by the default pipeline like any free text.
    One record is appended to the store (the fixed goal, [flow.study],
    0.91), and the router is Idle afterwards when the record's log file
    could be written; when it could not, the OSError ends the loop. *)
Theorem dev_without_separator_runs_default_pipeline (env : Env) (s : State) :
  let r := anchored repr_float env in
  is_dev "dev studymod" = false
  ∧ loop_body repr_float env "dev studymod"
    = (AndromedaKernel.launch repr_float env "dev studymod" ;; mret Continue)
  ∧ records (router_state (step repr_float env "dev studymod" s))
    = records s ++ [r]
  ∧ step repr_float env "dev studymod" s
    = (if writable env
       then Idle (say (persist (remember s r) r)
                      (launch_head repr_float env "dev studymod"
                       ++ launch_tail repr_float env))
       else Crashed OSError
              (say (remember s r)
                   (launch_head repr_float env "dev studymod"))).
Proof.
  intros r.
  assert (loop_body repr_float env "dev studymod"
          = (AndromedaKernel.launch repr_float env "dev studymod"
             ;; mret Continue)) as Hbody by reflexivity.
  split_and!; [reflexivity | done | by apply step_launch_records
              | by apply step_launch].
Qed.

(** C2 (as the code has it). Every line that, lower-cased, is none of
    [exit], [map], [chaos], [plugin], does not start with [recall ], and
    is not a dev command (a line starting with [dev] that holds a '|') is
    handled by the default pipeline; each such line appends exactly one
    record to the store, and the router is Idle afterwards when the
    record's log file could be written. *)
Theorem other_lines_run_default_pipeline (env : Env) (cmd : string)
    (s : State) :
  PyStr.lower cmd ≠ "exit" →
  PyStr.startswith (PyStr.lower cmd) "recall " = false →
  PyStr.lower cmd ≠ "map" →
  PyStr.lower cmd ≠ "chaos" →
  PyStr.lower cmd ≠ "plugin" →
  is_dev cmd = false →
  let r := anchored repr_float env in
  loop_body repr_float env cmd
  = (AndromedaKernel.launch repr_float env cmd ;; mret Continue)
  ∧ records (router_state (step repr_float env cmd s)) = records s ++ [r]
  ∧ step repr_float env cmd s
    = (if writable env
       then Idle (say (persist (remember s r) r)
                      (launch_head repr_float env cmd
                       ++ launch_tail repr_float env))
       else Crashed OSError
              (say (remember s r) (launch_head repr_float env cmd))).
Proof.
  intros Hexit Hrecall Hmap Hchaos Hplugin Hdev r.
  pose proof (loop_body_default repr_float env cmd
                Hexit Hrecall Hmap Hchaos Hplugin Hdev) as Hbody.
  split_and!; [done | by apply step_launch_records | by apply step_launch].
Qed.

(** C3 (the code at the failing line). The line [dev a | b | c] passes the
    guard of the dev branch; its split at '|' has three pieces, the
    unpacking into two names raises ValueError, nothing catches it, and
    the loop ends with the state as it was. *)
Theorem dev_with_two_separators_raises (env : Env) (s : State) :
  is_dev "dev a | b | c" = true
  ∧ PyStr.split "|" "dev a | b | c" = ["dev a "; " b "; " c"]
  ∧ step repr_float env "dev a | b | c" s = Crashed ValueError s.
Proof.
  split_and!; [reflexivity | reflexivity |].
  by apply step_dev_other.
Qed.

(** C6. Whatever the match, the record [launch] anchors carries the
    primary module when [score >= 0.9] and the backup module otherwise.
    For the line [I want to study for my exam] the match has score 0.91,
    the test [0.91 >= 0.9] holds, and the line appends exactly one record,
    with the primary module and score 0.91. The stored record is stated
    field by field: its module is the primary or the backup module as the
    test decides, its score and justification are those of the match, its
    goal is the goal handed over, its id and timestamp are the readings of
    the call. *)
Theorem launch_anchors_primary_or_backup :
  (∀ env goal m s,
     records (state_of (AndromedaKernel.launch_matched env goal m s))
     = records s
       ++ [Memory.new_record env goal
             (if (0.9 <=? score m)%float then primary_module m
              else backup_module m)
             (score m) (justification m)])
  ∧ (∀ env s,
       ∃ m,
         llm_match repr_float
           (goal_class (llm_understand "I want to study for my exam")) s
         = Ok m s
         ∧ score m = 0.91%float
         ∧ (0.9 <=? score m)%float = true
         ∧ records (router_state
                      (step repr_float env "I want to study for my exam" s))
           = records s
             ++ [Memory.new_record env
                   (intent (llm_understand "I want to study for my exam"))
                   (primary_module m) 0.91%float (justification m)])
  ∧ (∀ env goal m s,
       ∃ r,
         records (state_of (AndromedaKernel.launch_matched env goal m s))
         = records s ++ [r]
         ∧ ((0.9 <=? score m)%float = true → r_module r = primary_module m)
         ∧ ((0.9 <=? score m)%float = false → r_module r = backup_module m)
         ∧ r_score r = score m
         ∧ r_goal r = goal
         ∧ r_justification r = justification m
         ∧ r_id r = uuid4 env
         ∧ r_timestamp r = now env)
  ∧ (∀ env s,
       ∃ m r,
         llm_match repr_float
           (goal_class (llm_understand "I want to study for my exam")) s
         = Ok m s
         ∧ primary_module m = "flow.study"
         ∧ records (router_state
                      (step repr_float env "I want to study for my exam" s))
           = records s ++ [r]
         ∧ r_module r = primary_module m
         ∧ r_module r = "flow.study"
         ∧ r_score r = 0.91%float
         ∧ r_goal r = "build educational chatbot"
         ∧ r_id r = uuid4 env
         ∧ r_timestamp r = now env).
Proof.
  split_and!.
  - apply launch_matched_records.
  - intros env s. eexists. rewrite llm_match_run.
    split_and!; [reflexivity | reflexivity | reflexivity |].
    by rewrite step_launch_records.
  - intros env goal m s. eexists. split; [apply launch_matched_records |].
    simpl. split_and!; try reflexivity.
    + by intros ->.
    + by intros ->.
  - intros env s. eexists _, _. rewrite llm_match_run.
    split; [reflexivity |]. split; [reflexivity |].
    split; [by rewrite step_launch_records |].
    by split_and!.
Qed.

(** C10. What the default pipeline anchors does not depend on the line:
    the record has goal [build educational chatbot], module [flow.study],
    score 0.91 and the one justification text, so two runs on any two
    lines anchor records that agree on every field but id and timestamp;
    the match always has a score that passes the 0.9 test, so the record
    never carries the backup module. *)
Theorem anchored_fields_ignore_input :
  (∀ env cmd s,
     records (state_of (AndromedaKernel.launch repr_float env cmd s))
     = records s ++ [anchored repr_float env])
  ∧ (∀ env,
       r_goal (anchored repr_float env) = "build educational chatbot"
       ∧ r_module (anchored repr_float env) = "flow.study"
       ∧ r_score (anchored repr_float env) = 0.91%float
       ∧ r_justification (anchored repr_float env)
         = justification_for repr_float "tutoring"
       ∧ r_id (anchored repr_float env) = uuid4 env
       ∧ r_timestamp (anchored repr_float env) = now env)
  ∧ (∀ env1 env2,
       r_goal (anchored repr_float env1) = r_goal (anchored repr_float env2)
       ∧ r_module (anchored repr_float env1)
         = r_module (anchored repr_float env2)
       ∧ r_score (anchored repr_float env1)
         = r_score (anchored repr_float env2)
       ∧ r_justification (anchored repr_float env1)
         = r_justification (anchored repr_float env2))
  ∧ (∀ goal_class s,
       ∃ m, llm_match repr_float goal_class s = Ok m s
            ∧ (0.9 <=? score m)%float = true
            ∧ primary_module m = "flow.study"
            ∧ backup_module m = "quiz.kernel")
  ∧ (∀ env, r_module (anchored repr_float env) ≠ "quiz.kernel").
Proof.
  split_and!.
  - intros env cmd s. rewrite launch_run. by destruct (writable env).
  - intros env. by split_and!.
  - intros env1 env2. by split_and!.
  - intros gc s. eexists. rewrite llm_match_run. by split_and!.
  - intros env. discriminate.
Qed.

End Claims.

(** ** Every line, and the whole loop *)

Lemma getitem_cases {A} (l : list A) (i : Z) (s : State) :
  (∃ x, getitem l i s = Ok x s) ∨ getitem l i s = Raise IndexError s.
Proof.
  unfold getitem.
  set (j := if (i <? 0)%Z then (Z.of_nat (length l) + i)%Z else i).
  destruct (j <? 0)%Z; [by right |].
  destruct (l !! Z.to_nat j); [left; by eexists | by right].
Qed.

Lemma getitem_last_cons {A} (x : A) (l : list A) (s : State) :
  ∃ y, last (x :: l) = Some y ∧ getitem (x :: l) (-1) s = Ok y s.
Proof.
  destruct (proj2 (last_is_Some (x :: l))) as [y Hy]; [done |].
  exists y. split; [done | by apply getitem_last].
Qed.

Lemma getitem_lookup {A} (l : list A) (i : nat) (x : A) (s : State) :
  l !! i = Some x → getitem l (Z.of_nat i) s = Ok x s.
Proof.
  intros Hi. unfold getitem.
  destruct (Z.ltb_spec (Z.of_nat i) 0) as [?|_]; [lia |].
  destruct (Z.ltb_spec (Z.of_nat i) 0) as [?|_]; [lia |].
  by rewrite Nat2Z.id, Hi.
Qed.

Lemma unpack2_cases {A} (l : list A) (s : State) :
  (∃ a b, l = [a; b] ∧ unpack2 l s = Ok (a, b) s)
  ∨ unpack2 l s = Raise ValueError s.
Proof.
  destruct l as [|a [|b [|c l]]]; try by right.
  left. by exists a, b.
Qed.

Section Loop.
Variable repr_float : float → string.

(** What a line can do to the state: print, or append the pipeline's
    record (and print), or append it, write its log file (and print). *)
Lemma step_effect (env : Env) (cmd : string) (s : State) :
  let r := anchored repr_float env in
  let s' := router_state (step repr_float env cmd s) in
  ∃ es, s' = say s es
        ∨ s' = say (remember s r) es
        ∨ s' = say (persist (remember s r) r) es.
Proof.
  intros r s'. subst s'. unfold step.
  destruct (String.eqb (PyStr.lower cmd) "exit") eqn:Hexit.
  { exists []. left. unfold loop_body. rewrite Hexit.
    rewrite ret_run. simpl. by rewrite say_nil. }
  destruct (PyStr.startswith (PyStr.lower cmd) "recall ") eqn:Hrecall.
  { unfold loop_body. rewrite Hexit, Hrecall, bind_run.
    destruct (getitem_cases (PyStr.split1 " " cmd) (-1) s) as [[q ->]| ->].
    - rewrite bind_run. unfold AndromedaKernel.recall. rewrite recall_run.
      eexists. by left.
    - exists []. left. simpl. by rewrite say_nil. }
  destruct (String.eqb (PyStr.lower cmd) "map") eqn:Hmap.
  { unfold loop_body. rewrite Hexit, Hrecall, Hmap, bind_run.
    unfold AndromedaKernel.map. rewrite map_run. eexists. by left. }
  destruct (String.eqb (PyStr.lower cmd) "chaos") eqn:Hchaos.
  { unfold loop_body. rewrite Hexit, Hrecall, Hmap, Hchaos, bind_run.
    unfold AndromedaKernel.chaos, chaos_kernel. rewrite bind_run.
    destruct (getitem_cases perturbations
                (Z.of_nat (choice env mod length perturbations)) s)
      as [[p ->]| ->].
    - rewrite print_run. eexists. by left.
    - exists []. left. simpl. by rewrite say_nil. }
  destruct (String.eqb (PyStr.lower cmd) "plugin") eqn:Hplugin.
  { unfold loop_body. rewrite Hexit, Hrecall, Hmap, Hchaos, Hplugin.
    eexists. left. reflexivity. }
  destruct (is_dev cmd) eqn:Hdev.
  { rewrite loop_body_dev, bind_run by done.
    destruct (unpack2_cases (PyStr.strip <$> PyStr.split "|" cmd) s)
      as [(a & b & _ & ->)| ->].
    - rewrite bind_run.
      destruct (getitem_cases (PyStr.split " " a) (-1) s) as [[m ->]| ->].
      + eexists. left. reflexivity.
      + exists []. left. simpl. by rewrite say_nil.
    - exists []. left. simpl. by rewrite say_nil. }
  apply String.eqb_neq in Hexit, Hmap, Hchaos, Hplugin.
  fold (step repr_float env cmd s).
  rewrite step_launch by by apply loop_body_default.
  fold r. destruct (writable env); eexists; simpl; eauto.
Qed.

Lemma step_prefix (env : Env) (cmd : string) (s : State) :
  records s `prefix_of` records (router_state (step repr_float env cmd s)).
Proof.
  destruct (step_effect env cmd s) as [es [-> | [-> | ->]]]; simpl;
    by try apply prefix_app_r.
Qed.

(** Over the whole loop the records only grow, at the end. *)
Lemma run_prefix (inputs : list (Env * string)) (s : State) :
  records s `prefix_of` records (router_state (run repr_float inputs s)).
Proof.
  revert s. induction inputs as [|[env cmd] inputs IH]; intros s; simpl;
    [done |].
  pose proof (step_prefix env cmd s) as Hstep.
  destruct (step repr_float env cmd s) as [s'|s'|e s']; simpl in *;
    [by etrans | done | done].
Qed.

Lemma step_mirror (env : Env) (cmd : string) (s : State) :
  files_mirror_records s →
  files_mirror_records (router_state (step repr_float env cmd s)).
Proof.
  intros Hs fn f.
  destruct (step_effect env cmd s) as [es [-> | [-> | ->]]]; simpl.
  - apply Hs.
  - intros Hf. destruct (Hs fn f Hf) as (r & Hr & ? & ?).
    exists r. split_and!; try done. apply elem_of_app. by left.
  - destruct (decide (fn = log_name (anchored repr_float env))) as [->|Hne].
    + rewrite lookup_insert_eq. intros [= <-].
      eexists. split_and!; try done. apply elem_of_app. right. by left.
    + rewrite lookup_insert_ne by done.
      intros Hf. destruct (Hs fn f Hf) as (r & Hr & ? & ?).
      exists r. split_and!; try done. apply elem_of_app. by left.
Qed.

Lemma run_mirror (inputs : list (Env * string)) (s : State) :
  files_mirror_records s →
  files_mirror_records (router_state (run repr_float inputs s)).
Proof.
  revert s. induction inputs as [|[env cmd] inputs IH]; intros s Hs; simpl;
    [done |].
  pose proof (step_mirror env cmd s Hs) as Hstep.
  destruct (step repr_float env cmd s) as [s'|s'|e s']; simpl in *;
    [by apply IH | done | done].
Qed.

End Loop.

(** ** The log files and the append-only store *)

(** C8. When the log file can be opened, [export_docs] writes the record
    to exactly one file and touches no other: the file is named
    [andromeda_log_], then the first eight characters of the record's id
    (all of the id when it is shorter), then [.json]; it holds the JSON
    dump, two spaces per level, of the object whose members are id,
    timestamp, goal, module, score and justification, in this order, the
    score a float and the other five strings. Over any run of the loop
    from the empty state, every log file is such a dump of a stored
    record, under the name made from that record's id. *)
Theorem export_writes_one_json_file (env : Env) (r : SessionRecord)
    (s : State) :
  writable env = true →
  (∀ repr_float inputs,
     files_mirror_records (router_state (run repr_float inputs initial)))
  ∧ ∃ s',
    export_docs env r s = Ok tt s'
    ∧ records s' = records s
    ∧ files s' = <[log_name r := {| json_members := items r; json_indent := 2 |}]> (files s)
    ∧ files s' !! log_name r
      = Some {| json_members := items r; json_indent := 2 |}
    ∧ (∀ fn, fn ≠ log_name r → files s' !! fn = files s !! fn)
    ∧ log_name r = ("andromeda_log_" ++ PyStr.take 8 (r_id r) ++ ".json")%string
    ∧ (∃ rest, r_id r = (PyStr.take 8 (r_id r) ++ rest)%string)
    ∧ String.length (PyStr.take 8 (r_id r)) = Nat.min 8 (String.length (r_id r))
    ∧ items r = [ ("id", VStr (r_id r)); ("timestamp", VStr (r_timestamp r));
                  ("goal", VStr (r_goal r)); ("module", VStr (r_module r));
                  ("score", VFloat (r_score r));
                  ("justification", VStr (r_justification r)) ]
    ∧ (items r).*1
      = ["id"; "timestamp"; "goal"; "module"; "score"; "justification"].
Proof.
  intros Hw. split.
  { intros repr_float inputs. apply run_mirror. intros fn f Hf.
    simpl in Hf. by rewrite lookup_empty in Hf. }
  exists (say (persist s r) [EExport (log_name r)]).
  rewrite export_docs_run, Hw. split_and!; try reflexivity.
  - apply lookup_insert_eq.
  - intros fn Hfn. by apply lookup_insert_ne.
  - apply PyStrFacts.take_app.
  - apply PyStrFacts.take_length.
Qed.

(** C9. The store is append-only. [anchor] leaves the records it found in
    place and adds exactly one at the end (also when the write of the log
    file then fails); [recall] and [map] leave the list as it was; hence
    after any sequence of the three operations the list before is a prefix
    of the list after, and every record keeps its position and content;
    the same holds over any run of the interactive loop. *)
Theorem store_is_append_only :
  (∀ env goal module score justification s,
     records (state_of (Memory.anchor env goal module score justification s))
     = records s ++ [Memory.new_record env goal module score justification])
  ∧ (∀ query s, records (state_of (Memory.recall query s)) = records s)
  ∧ (∀ s, records (state_of (Memory.map s)) = records s)
  ∧ (∀ ops s,
       records s `prefix_of` records (state_of (for_each ops apply_op s)))
  ∧ (∀ ops s i r,
       records s !! i = Some r →
       records (state_of (for_each ops apply_op s)) !! i = Some r)
  ∧ (∀ repr_float inputs s,
       records s
       `prefix_of` records (router_state (run repr_float inputs s))).
Proof.
  split_and!.
  - apply anchor_records.
  - intros. by rewrite recall_run.
  - intros. by rewrite map_run.
  - apply apply_ops_prefix.
  - intros ops s i r Hi.
    destruct (apply_ops_prefix ops s) as [k ->]. by apply lookup_app_l_Some.
  - intros. apply run_prefix.
Qed.

(** ** Concrete runs *)

(** A session of five lines: free text, two recalls, the map, exit. The
    line after [exit] is never read. *)
Example session_run :
  match run repr_scores
          [ (env0, "I want to study for my exam"); (env0, "recall STUDY");
            (env0, "Recall Build"); (env0, "MAP"); (env0, "Exit");
            (env0, "never read") ] initial
  with
  | Stopped s =>
      records s = [anchored repr_scores env0]
      ∧ console s
        = launch_head repr_scores env0 "I want to study for my exam"
          ++ launch_tail repr_scores env0
          ++ [ ERecallSearch "STUDY"; ERecallNone;
               ERecallSearch "Build"; ERecallHit (anchored repr_scores env0);
               EMapHeader; EMapRow "2025-06-01" "flow.study"; EMapFooter ]
  | _ => False
  end.
Proof. vm_compute. split; reflexivity. Qed.

(** C1, the claim as written fails: on [dev studymod], from the empty
    store, the router stays Idle but the store holds a new record, and
    what was printed is the output of the default pipeline. *)
Lemma dev_studymod_creates_record :
  records (router_state (step repr_scores env0 "dev studymod" initial))
  = [ {| r_id := "3f2b8c1e-9d4a-4f6b-8a2e-5c7d1e0f9b3a";
         r_timestamp := "2025-06-01T10:15:30.123456";
         r_goal := "build educational chatbot";
         r_module := "flow.study";
         r_score := 0.91%float;
         r_justification :=
           "Matched flow.study for goal_class 'tutoring' with confidence 0.91"
      |} ]
  ∧ records (router_state (step repr_scores env0 "dev studymod" initial))
    ≠ records initial
  ∧ console (router_state (step repr_scores env0 "dev studymod" initial))
    = launch_head repr_scores env0 "dev studymod"
      ++ launch_tail repr_scores env0.
Proof. split_and!; [reflexivity | discriminate | reflexivity]. Qed.

(** C2, the claim as written fails: [chaos] is none of the lines the claim
    excludes, yet the router prints a perturbation and appends nothing. *)
Lemma chaos_is_not_default_pipeline :
  PyStr.lower "chaos" ≠ "exit"
  ∧ PyStr.startswith (PyStr.lower "chaos") "recall " = false
  ∧ PyStr.lower "chaos" ≠ "map"
  ∧ is_dev "chaos" = false
  ∧ step repr_scores env0 "chaos" initial
    = Idle (say initial [EChaos "Recursive goal loop"])
  ∧ records (router_state (step repr_scores env0 "chaos" initial))
    = records initial
  ∧ ¬ (∃ r, records (router_state (step repr_scores env0 "chaos" initial))
            = records initial ++ [r]).
Proof.
  split_and!; try reflexivity; try discriminate.
  intros [r Hr]. discriminate Hr.
Qed.

Lemma other_lines_run_default_pipeline_witness :
  PyStr.lower "I want to study for my exam" ≠ "exit"
  ∧ PyStr.startswith (PyStr.lower "I want to study for my exam") "recall "
    = false
  ∧ PyStr.lower "I want to study for my exam" ≠ "map"
  ∧ PyStr.lower "I want to study for my exam" ≠ "chaos"
  ∧ PyStr.lower "I want to study for my exam" ≠ "plugin"
  ∧ is_dev "I want to study for my exam" = false
  ∧ records (router_state
               (step repr_scores env0 "I want to study for my exam" initial))
    = records initial ++ [anchored repr_scores env0].
Proof.
  assert (PyStr.lower "I want to study for my exam" ≠ "exit") as Hexit
    by discriminate.
  assert (PyStr.startswith (PyStr.lower "I want to study for my exam")
            "recall " = false) as Hrecall by reflexivity.
  assert (PyStr.lower "I want to study for my exam" ≠ "map") as Hmap
    by discriminate.
  assert (PyStr.lower "I want to study for my exam" ≠ "chaos") as Hchaos
    by discriminate.
  assert (PyStr.lower "I want to study for my exam" ≠ "plugin") as Hplugin
    by discriminate.
  assert (is_dev "I want to study for my exam" = false) as Hdev
    by reflexivity.
  split_and!; [exact Hexit | exact Hrecall | exact Hmap | exact Hchaos
              | exact Hplugin | exact Hdev |].
  exact (proj1 (proj2 (other_lines_run_default_pipeline repr_scores env0
                         "I want to study for my exam" initial
                         Hexit Hrecall Hmap Hchaos Hplugin Hdev))).
Defined.

(** C7, the claim as written fails: a call of [anchor] whose write
    succeeds evaluates to [None], not to the record it stored. *)
Lemma anchor_does_not_return_record :
  (∃ s', Memory.anchor env0 "learn rocq" "flow.study" 0.91%float "why"
           initial = Ok None s'
         ∧ records s'
           = [Memory.new_record env0 "learn rocq" "flow.study" 0.91%float
                "why"])
  ∧ ¬ (∃ s', Memory.anchor env0 "learn rocq" "flow.study" 0.91%float "why"
               initial
             = Ok (Some (Memory.new_record env0 "learn rocq" "flow.study"
                           0.91%float "why")) s').
Proof.
  rewrite anchor_run. simpl. split.
  - eexists. split; reflexivity.
  - intros [s' Hs']. discriminate Hs'.
Qed.

Lemma anchor_appends_persists_returns_none_witness :
  (uuid4 env0 ∉ (r_id <$> records initial))
  ∧ NoDup (r_id <$> records initial)
  ∧ NoDup (r_id <$> (records initial
                     ++ [Memory.new_record env0 "learn rocq" "flow.study"
                           0.91%float "why"])).
Proof.
  assert (uuid4 env0 ∉ (r_id <$> records initial)) as Hfresh
    by apply not_elem_of_nil.
  assert (NoDup (r_id <$> records initial)) as Hnodup by apply NoDup_nil_2.
  split_and!; [done | done |].
  exact (proj2 (proj2 (proj2 (proj2 (proj2
           (anchor_appends_persists_returns_none env0 "learn rocq"
              "flow.study" 0.91%float "why" initial)))))
           Hfresh Hnodup).
Defined.

Lemma export_writes_one_json_file_witness :
  writable env0 = true
  ∧ (∃ s', export_docs env0 (anchored repr_scores env0) initial = Ok tt s'
           ∧ files s' !! "andromeda_log_3f2b8c1e.json"
             = Some {| json_members := items (anchored repr_scores env0);
                       json_indent := 2 |}).
Proof.
  split; [reflexivity |].
  destruct (export_writes_one_json_file env0 (anchored repr_scores env0)
              initial eq_refl) as (_ & s' & Hrun & _ & _ & Hfile & _).
  exists s'. split; [exact Hrun | exact Hfile].
Defined.

(** * Further properties *)

(** ** The branches of the loop *)

Section Branches.
Variable repr_float : float → string.

(** What the loop does with a line, branch by branch. *)
Lemma step_by_branch (env : Env) (cmd : string) (s : State) :
  match branch_of cmd with
  | BExit => step repr_float env cmd s = Stopped s
  | BRecall =>
      ∃ q, last (PyStr.split1 " " cmd) = Some q
           ∧ step repr_float env cmd s
             = Idle (say s (ERecallSearch q
                            :: recall_report (Memory.matches q (records s))))
  | BMap =>
      step repr_float env cmd s
      = Idle (say s (EMapHeader :: (row_of <$> last_n 5 (records s))
                     ++ [EMapFooter]))
  | BChaos =>
      ∃ p, p ∈ perturbations
           ∧ step repr_float env cmd s = Idle (say s [EChaos p])
  | BPlugin => step repr_float env cmd s = Idle (say s [EPlugin])
  | BDev =>
      (∃ a b module,
         PyStr.split "|" cmd = [a; b]
         ∧ last (PyStr.split " " (PyStr.strip a)) = Some module
         ∧ step repr_float env cmd s
           = Idle (say s [EDev module (PyStr.strip b)]))
      ∨ (length (PyStr.split "|" cmd) ≠ 2
         ∧ step repr_float env cmd s = Crashed ValueError s)
  | BDefault =>
      step repr_float env cmd s
      = if writable env
        then Idle (say (persist (remember s (anchored repr_float env))
                          (anchored repr_float env))
                       (launch_head repr_float env cmd
                        ++ launch_tail repr_float env))
        else Crashed OSError
               (say (remember s (anchored repr_float env))
                    (launch_head repr_float env cmd))
  end.
Proof.
  unfold branch_of.
  destruct (String.eqb (PyStr.lower cmd) "exit") eqn:Hexit.
  { unfold step, loop_body. by rewrite Hexit. }
  destruct (PyStr.startswith (PyStr.lower cmd) "recall ") eqn:Hrecall.
  { unfold step, loop_body. rewrite Hexit, Hrecall, bind_run.
    destruct (PyStrFacts.split1_cons " " cmd) as [w [ws ->]].
    destruct (getitem_last_cons w ws s) as [q [Hq ->]].
    exists q. split; [done |].
    rewrite bind_run. unfold AndromedaKernel.recall. by rewrite recall_run. }
  destruct (String.eqb (PyStr.lower cmd) "map") eqn:Hmap.
  { apply step_map. by apply String.eqb_eq. }
  destruct (String.eqb (PyStr.lower cmd) "chaos") eqn:Hchaos.
  { unfold step, loop_body. rewrite Hexit, Hrecall, Hmap, Hchaos, bind_run.
    unfold AndromedaKernel.chaos, chaos_kernel. rewrite bind_run.
    destruct (lookup_lt_is_Some_2 perturbations
                (choice env mod length perturbations)) as [p Hp].
    { apply Nat.mod_upper_bound. discriminate. }
    rewrite (getitem_lookup _ _ p) by done.
    exists p. split; [by eapply list_elem_of_lookup_2 | done]. }
  destruct (String.eqb (PyStr.lower cmd) "plugin") eqn:Hplugin.
  { unfold step, loop_body.
    by rewrite Hexit, Hrecall, Hmap, Hchaos, Hplugin. }
  destruct (is_dev cmd) eqn:Hdev.
  { destruct (decide (length (PyStr.split "|" cmd) = 2)) as [Hlen|Hlen].
    - left.
      destruct (PyStr.split "|" cmd) as [|a [|b [|c l]]] eqn:Hsplit;
        try discriminate Hlen.
      destruct (step_dev_one_separator repr_float env cmd a b s Hdev Hsplit)
        as (m & Hm & Hstep).
      by exists a, b, m.
    - right. split; [done | by apply step_dev_other]. }
  apply String.eqb_neq in Hexit, Hmap, Hchaos, Hplugin.
  apply step_launch. by apply loop_body_default.
Qed.

End Branches.

Lemma filter_app_bool {A} (f : A → bool) (l k : list A) :
  List.filter f (l ++ k) = List.filter f l ++ List.filter f k.
Proof.
  induction l as [|x l IH]; simpl; [done |].
  destruct (f x); simpl; by rewrite IH.
Qed.

Section Runs.
Variable repr_float : float → string.

Lemma step_records (env : Env) (cmd : string) (s : State) :
  records (router_state (step repr_float env cmd s))
  = records s ++ (if is_default cmd then [anchored repr_float env] else []).
Proof.
  pose proof (step_by_branch repr_float env cmd s) as Hstep.
  unfold is_default. destruct (branch_of cmd).
  - rewrite Hstep. simpl. by rewrite app_nil_r.
  - destruct Hstep as (q & _ & ->). simpl. by rewrite app_nil_r.
  - rewrite Hstep. simpl. by rewrite app_nil_r.
  - destruct Hstep as (p & _ & ->). simpl. by rewrite app_nil_r.
  - rewrite Hstep. simpl. by rewrite app_nil_r.
  - destruct Hstep as [(a & b & m & _ & _ & ->)|[_ ->]]; simpl;
      by rewrite app_nil_r.
  - rewrite Hstep. by destruct (writable env).
Qed.

Lemma step_files (env : Env) (cmd : string) (s : State) :
  files (router_state (step repr_float env cmd s))
  = if is_default cmd && writable env
    then <[log_name (anchored repr_float env)
           := dump_of (anchored repr_float env)]> (files s)
    else files s.
Proof.
  pose proof (step_by_branch repr_float env cmd s) as Hstep.
  unfold is_default. destruct (branch_of cmd).
  - by rewrite Hstep.
  - by destruct Hstep as (q & _ & ->).
  - by rewrite Hstep.
  - by destruct Hstep as (p & _ & ->).
  - by rewrite Hstep.
  - by destruct Hstep as [(a & b & m & _ & _ & ->)|[_ ->]].
  - rewrite Hstep. by destruct (writable env).
Qed.

Lemma step_console (env : Env) (cmd : string) (s : State) :
  console s `prefix_of` console (router_state (step repr_float env cmd s)).
Proof.
  destruct (step_effect repr_float env cmd s) as [es [-> | [-> | ->]]];
    simpl; by apply prefix_app_r.
Qed.

Lemma anchored_for_cons (env : Env) (cmd : string)
    (inputs : list (Env * string)) :
  anchored_for repr_float ((env, cmd) :: inputs)
  = (if is_default cmd then [anchored repr_float env] else [])
    ++ anchored_for repr_float inputs.
Proof. unfold anchored_for. simpl. by destruct (is_default cmd). Qed.

Lemma run_records (inputs : list (Env * string)) (s : State) :
  ∃ done rest,
    anchored_for repr_float inputs = done ++ rest
    ∧ records (router_state (run repr_float inputs s)) = records s ++ done
    ∧ (∀ s', run repr_float inputs s = Idle s' → rest = []).
Proof.
  revert s. induction inputs as [|[env cmd] inputs IH]; intros s.
  - exists [], []. simpl. by rewrite app_nil_r.
  - rewrite anchored_for_cons. simpl.
    pose proof (step_records env cmd s) as Hrec.
    destruct (step repr_float env cmd s) as [s1|s1|e s1] eqn:Hstep;
      simpl in Hrec.
    + destruct (IH s1) as (done & rest & Heq & Hdone & Hidle).
      exists ((if is_default cmd then [anchored repr_float env] else [])
              ++ done), rest.
      rewrite Heq, Hdone, Hrec, !app_assoc. done.
    + eexists _, _. split; [reflexivity |]. split; [exact Hrec | done].
    + eexists _, _. split; [reflexivity |]. split; [exact Hrec | done].
Qed.

Lemma split_length (sep : ascii) (s : string) :
  length (PyStr.split sep s) = S (count_char sep s).
Proof.
  induction s as [|c s IH]; [done |]. simpl.
  destruct (Ascii.eqb c sep); simpl; [by rewrite IH |].
  destruct (PyStr.split sep s) as [|w ws]; simpl in *; lia.
Qed.

Lemma count_char_contains (sep : ascii) (s : string) :
  PyStr.contains (String sep "") s = true → 1 ≤ count_char sep s.
Proof.
  induction s as [|c s IH]; [done |].
  rewrite PyStrFacts.contains_cons. simpl.
  change (String.prefix (String sep "") (String c s))
    with (if Ascii.ascii_dec sep c then String.prefix "" s else false).
  destruct (Ascii.ascii_dec sep c) as [->|Hne].
  - rewrite Ascii.eqb_refl. lia.
  - intros Hs. simpl in Hs. apply IH in Hs. lia.
Qed.

(** X1. A line that the dev branch takes (it starts with [dev] in any
    letter case and holds a '|') holds at least one '|'; when it holds two
    or more, the unpacking of its pieces into two names raises ValueError
    and the loop ends with the state untouched: nothing was printed,
    stored or written for the line. And no line at all ends the loop with
    IndexError: every index expression of the program is applied to a
    list that has the element asked for. *)
Theorem dev_line_with_more_separators_raises (env : Env) (cmd : string)
    (s : State) :
  (is_dev cmd = true → 1 ≤ count_char "|" cmd)
  ∧ (is_dev cmd = true → 2 ≤ count_char "|" cmd →
     step repr_float env cmd s = Crashed ValueError s)
  ∧ (∀ s', step repr_float env cmd s ≠ Crashed IndexError s').
Proof.
  split_and!.
  - intros [_ Hbar]%andb_true_iff. by apply count_char_contains.
  - intros Hdev Hcount. apply step_dev_other; [done |].
    rewrite split_length. lia.
  - intros s'. pose proof (step_by_branch repr_float env cmd s) as Hstep.
    destruct (branch_of cmd).
    + by rewrite Hstep.
    + by destruct Hstep as (q & _ & ->).
    + by rewrite Hstep.
    + by destruct Hstep as (p & _ & ->).
    + by rewrite Hstep.
    + by destruct Hstep as [(a & b & m & _ & _ & ->)|[_ ->]].
    + rewrite Hstep. by destruct (writable env).
Qed.

(** X2. Only free-text lines change the store or the disk: a line that any
    of the six guarded branches takes (exit, recall, map, chaos, plugin,
    dev) leaves the records and the log files exactly as they were,
    whether it ends normally or not; it can only add output. *)
Theorem guarded_branches_leave_store_and_files (env : Env) (cmd : string)
    (s : State) :
  is_default cmd = false →
  records (router_state (step repr_float env cmd s)) = records s
  ∧ files (router_state (step repr_float env cmd s)) = files s
  ∧ console s `prefix_of` console (router_state (step repr_float env cmd s)).
Proof.
  intros Hd. rewrite step_records, step_files, Hd. simpl.
  rewrite app_nil_r. split_and!; [done | done | apply step_console].
Qed.

(** X3. The store after the loop is the store before it followed by one
    record per free-text line that was handled, in the order of the
    lines, each with the uuid and the clock text of its own iteration and
    the fixed goal, module, score and justification. When the loop is
    still Idle after the last line, every free-text line has its record;
    when it stopped or failed earlier, the lines up to that point have. *)
Theorem run_anchors_one_record_per_free_text_line
    (inputs : list (Env * string)) (s : State) :
  (∃ done,
     done `prefix_of` anchored_for repr_float inputs
     ∧ records (router_state (run repr_float inputs s)) = records s ++ done)
  ∧ (∀ s', run repr_float inputs s = Idle s' →
           records s' = records s ++ anchored_for repr_float inputs)
  ∧ length (records (router_state (run repr_float inputs s)))
    ≤ length (records s)
      + length (List.filter (λ i, is_default i.2) inputs).
Proof.
  destruct (run_records inputs s) as (done & rest & Heq & Hrec & Hidle).
  split_and!.
  - exists done. split; [by exists rest | done].
  - intros s' Hrun. rewrite Hrun in Hrec. simpl in Hrec.
    rewrite Hrec, Heq, (Hidle s' Hrun). by rewrite app_nil_r.
  - rewrite Hrec, length_app.
    assert (length done ≤ length (anchored_for repr_float inputs)) as Hle
      by (rewrite Heq, length_app; lia).
    unfold anchored_for in Hle. rewrite length_fmap in Hle. lia.
Qed.

End Runs.

Lemma dev_line_with_more_separators_raises_witness :
  is_dev "Dev|x|y|z" = true
  ∧ 2 ≤ count_char "|" "Dev|x|y|z"
  ∧ step repr_scores env0 "Dev|x|y|z" initial = Crashed ValueError initial.
Proof.
  assert (is_dev "Dev|x|y|z" = true) as Hdev by reflexivity.
  assert (2 ≤ count_char "|" "Dev|x|y|z") as Hcount by (simpl; lia).
  split_and!; [exact Hdev | exact Hcount |].
  exact (proj1 (proj2 (dev_line_with_more_separators_raises repr_scores env0
                         "Dev|x|y|z" initial)) Hdev Hcount).
Defined.

Lemma guarded_branches_leave_store_and_files_witness :
  is_default "dev a | b | c" = false
  ∧ records (router_state (step repr_scores env0 "dev a | b | c" initial))
    = records initial
  ∧ files (router_state (step repr_scores env0 "dev a | b | c" initial))
    = files initial.
Proof.
  assert (is_default "dev a | b | c" = false) as Hd by reflexivity.
  destruct (guarded_branches_leave_store_and_files repr_scores env0
              "dev a | b | c" initial Hd) as (Hrec & Hfiles & _).
  split_and!; [exact Hd | exact Hrec | exact Hfiles].
Defined.

(** ** What the store can hold *)

Lemma matches_same_goal (query goal : string) (rs : list SessionRecord) :
  Forall (λ r, r_goal r = goal) rs →
  Memory.matches query rs
  = if PyStr.contains (PyStr.lower query) (PyStr.lower goal) then rs else [].
Proof.
  unfold Memory.matches. induction 1 as [|r rs Hr _ IH]; simpl.
  - by destruct (PyStr.contains _ _).
  - rewrite IH, Hr. by destruct (PyStr.contains _ _).
Qed.

Section Reachable.
Variable repr_float : float → string.

Lemma anchored_for_goal (inputs : list (Env * string)) :
  Forall (λ r, ∃ env, r = anchored repr_float env)
         (anchored_for repr_float inputs).
Proof.
  unfold anchored_for. apply Forall_fmap, Forall_forall.
  intros i _. simpl. by eexists.
Qed.

Lemma reachable_records (inputs : list (Env * string)) :
  Forall (λ r, ∃ env, r = anchored repr_float env)
         (records (router_state (run repr_float inputs initial))).
Proof.
  destruct (run_records repr_float inputs initial)
    as (done & rest & Heq & -> & _). simpl.
  pose proof (anchored_for_goal inputs) as Hall.
  rewrite Heq in Hall. by apply Forall_app in Hall as [? _].
Qed.

(** X4. Whatever was typed since the program started, every record of the
    store has the goal [build educational chatbot], the module
    [flow.study] and the score 0.91. Recall therefore never discriminates
    between records: a query that occurs in that goal (letter case apart)
    selects the whole store, any other query selects nothing. *)
Theorem recall_after_a_run_is_all_or_nothing
    (inputs : list (Env * string)) (query : string) :
  let s := router_state (run repr_float inputs initial) in
  (∀ r, r ∈ records s →
        r_goal r = "build educational chatbot"
        ∧ r_module r = "flow.study"
        ∧ r_score r = 0.91%float
        ∧ r_justification r = justification_for repr_float "tutoring")
  ∧ Memory.matches query (records s)
    = (if PyStr.contains (PyStr.lower query) "build educational chatbot"
       then records s else []).
Proof.
  intros s. subst s. pose proof (reachable_records inputs) as Hall. split.
  - intros r Hr. rewrite Forall_forall in Hall.
    destruct (Hall r Hr) as [env ->]. done.
  - rewrite (matches_same_goal query "build educational chatbot"); [done |].
    eapply Forall_impl; [exact Hall |]. by intros r [env ->].
Qed.

Lemma run_app (a b : list (Env * string)) (s : State) :
  run repr_float (a ++ b) s
  = match run repr_float a s with
    | Idle s' => run repr_float b s'
    | r => r
    end.
Proof.
  revert s. induction a as [|[env cmd] a IH]; intros s; simpl; [done |].
  destruct (step repr_float env cmd s); [apply IH | done | done].
Qed.

(** X5. The loop stops at the first line that is [exit] in any letter
    case: the state is left as the lines before it made it (nothing is
    printed or stored for the exit line), and the lines after it are never
    handled. *)
Theorem loop_stops_at_first_exit (before after : list (Env * string))
    (env : Env) (cmd : string) (s s1 : State) :
  run repr_float before s = Idle s1 →
  PyStr.lower cmd = "exit" →
  run repr_float (before ++ (env, cmd) :: after) s = Stopped s1.
Proof.
  intros Hbefore Hexit. rewrite run_app, Hbefore. simpl.
  pose proof (step_by_branch repr_float env cmd s1) as Hstep.
  unfold branch_of in Hstep. rewrite Hexit in Hstep. simpl in Hstep.
  by rewrite Hstep.
Qed.

End Reachable.

Lemma loop_stops_at_first_exit_witness :
  run repr_scores [(env0, "plugin")] initial = Idle (say initial [EPlugin])
  ∧ PyStr.lower "ExIt" = "exit"
  ∧ run repr_scores
      ([(env0, "plugin")] ++ (env0, "ExIt") :: [(env0, "free text")]) initial
    = Stopped (say initial [EPlugin]).
Proof.
  assert (run repr_scores [(env0, "plugin")] initial
          = Idle (say initial [EPlugin])) as Hbefore by reflexivity.
  assert (PyStr.lower "ExIt" = "exit") as Hexit by reflexivity.
  split_and!; [exact Hbefore | exact Hexit |].
  exact (loop_stops_at_first_exit repr_scores [(env0, "plugin")]
           [(env0, "free text")] env0 "ExIt" initial _ Hbefore Hexit).
Defined.

(** ** Lines are compared as typed *)

Lemma space_is_its_own_lower_case (c : ascii) :
  PyStr.is_space c = true →
  PyStr.lower_char c = c
  ∧ Ascii.eqb c "e" = false ∧ Ascii.eqb c "r" = false
  ∧ Ascii.eqb c "m" = false ∧ Ascii.eqb c "c" = false
  ∧ Ascii.eqb c "p" = false ∧ Ascii.eqb c "d" = false.
Proof.
  destruct c as [[] [] [] [] [] [] [] []]; intros Hs;
    try discriminate Hs; by split_and!.
Qed.

Lemma eqb_cons (c d : ascii) (s t : string) :
  String.eqb (String c s) (String d t)
  = if Ascii.eqb c d then String.eqb s t else false.
Proof. reflexivity. Qed.

Lemma prefix_cons_ne (c d : ascii) (p s : string) :
  Ascii.eqb c d = false → String.prefix (String d p) (String c s) = false.
Proof.
  intros Hcd.
  change (String.prefix (String d p) (String c s))
    with (if Ascii.ascii_dec d c then String.prefix p s else false).
  destruct (Ascii.ascii_dec d c) as [->|]; [|done].
  by rewrite Ascii.eqb_refl in Hcd.
Qed.

(** X6. Lines are not trimmed before they are matched. A line that begins
    with a white-space character is taken by no guarded branch, and a line
    that is [exit], [map], [chaos] or [plugin] (in any letter case)
    followed by at least one more character is taken by none either: both
    are handled as free text, so each appends a record to the store. *)
Theorem padded_commands_are_free_text (repr_float : float → string)
    (env : Env) (s : State) :
  (∀ c t, PyStr.is_space c = true →
          branch_of (String c t) = BDefault
          ∧ records (router_state (step repr_float env (String c t) s))
            = records s ++ [anchored repr_float env])
  ∧ (∀ cmd kw c t,
       kw ∈ ["exit"; "map"; "chaos"; "plugin"] →
       PyStr.lower cmd = (kw ++ String c t)%string →
       branch_of cmd = BDefault
       ∧ records (router_state (step repr_float env cmd s))
         = records s ++ [anchored repr_float env]).
Proof.
  split.
  - intros c t Hs.
    destruct (space_is_its_own_lower_case c Hs)
      as (Hl & He & Hr & Hm & Hc & Hp & Hd).
    assert (branch_of (String c t) = BDefault) as Hb.
    { unfold branch_of, is_dev, PyStr.startswith. simpl PyStr.lower.
      rewrite Hl, !eqb_cons, He, Hm, Hc, Hp, !prefix_cons_ne by done.
      reflexivity. }
    split; [done |]. rewrite step_records. unfold is_default. by rewrite Hb.
  - intros cmd kw c t Hkw Hcmd.
    assert (branch_of cmd = BDefault) as Hb.
    { unfold branch_of, is_dev, PyStr.startswith. rewrite Hcmd.
      repeat (apply elem_of_cons in Hkw as [->|Hkw]); [..|by inversion Hkw];
        reflexivity. }
    split; [done |]. rewrite step_records. unfold is_default. by rewrite Hb.
Qed.

Lemma padded_commands_are_free_text_witness :
  PyStr.is_space " " = true
  ∧ "exit" ∈ ["exit"; "map"; "chaos"; "plugin"]
  ∧ PyStr.lower "Exit " = ("exit" ++ String " " "")%string
  ∧ records (router_state (step repr_scores env0 " exit" initial))
    = records initial ++ [anchored repr_scores env0]
  ∧ records (router_state (step repr_scores env0 "Exit " initial))
    = records initial ++ [anchored repr_scores env0].
Proof.
  assert (PyStr.is_space " " = true) as Hs by reflexivity.
  assert ("exit" ∈ ["exit"; "map"; "chaos"; "plugin"]) as Hkw by left.
  assert (PyStr.lower "Exit " = ("exit" ++ String " " "")%string) as Hl
    by reflexivity.
  pose proof (padded_commands_are_free_text repr_scores env0 initial)
    as [Hlead Htrail].
  split_and!; [exact Hs | exact Hkw | exact Hl | |].
  - exact (proj2 (Hlead " "%char "exit" Hs)).
  - exact (proj2 (Htrail "Exit " "exit" " "%char "" Hkw Hl)).
Defined.

(** ** The dev line *)

Lemma contains_char_cons (sep c : ascii) (s : string) :
  PyStr.contains (String sep "") (String c s)
  = Ascii.eqb c sep || PyStr.contains (String sep "") s.
Proof.
  rewrite PyStrFacts.contains_cons. f_equal.
  change (String.prefix (String sep "") (String c s))
    with (if Ascii.ascii_dec sep c then String.prefix "" s else false).
  destruct (Ascii.ascii_dec sep c) as [->|Hne].
  - rewrite Ascii.eqb_refl. by destruct s.
  - symmetry. apply Ascii.eqb_neq. congruence.
Qed.

Lemma split_no_sep (sep : ascii) (s : string) :
  PyStr.contains (String sep "") s = false → PyStr.split sep s = [s].
Proof.
  induction s as [|c s IH]; [done |].
  rewrite contains_char_cons. intros [Hc Hs]%orb_false_iff.
  simpl. by rewrite Hc, IH.
Qed.

Lemma split_app (sep : ascii) (l r : string) :
  PyStr.contains (String sep "") l = false →
  PyStr.split sep (l ++ String sep r)%string = l :: PyStr.split sep r.
Proof.
  induction l as [|c l IH].
  - intros _. rewrite PyStrFacts.app_nil. simpl. by rewrite Ascii.eqb_refl.
  - rewrite contains_char_cons. intros [Hc Hl]%orb_false_iff.
    rewrite PyStrFacts.app_cons. simpl. by rewrite Hc, IH.
Qed.

Lemma split_pieces (sep : ascii) (s : string) :
  Forall (λ w, PyStr.contains (String sep "") w = false) (PyStr.split sep s).
Proof.
  induction s as [|c s IH]; simpl.
  - by repeat constructor.
  - destruct (Ascii.eqb c sep) eqn:Hc.
    + constructor; [done | exact IH].
    + destruct (PyStr.split sep s) as [|w ws].
      { constructor; [by rewrite contains_char_cons, Hc | constructor]. }
      apply Forall_cons in IH as [Hw Hws]. constructor; [|done].
      by rewrite contains_char_cons, Hc, Hw.
Qed.

(** X7. A line [left|right] with no other '|', whose left part starts with
    [dev] in any letter case, is a dev line: the patch is the right part
    without the white space around it, and the module is the last of the
    pieces that the single spaces of the trimmed left part delimit, so it
    holds no space; when the trimmed left part holds no space at all (the
    word [dev] alone, or a longer word such as [device]) the module is
    that whole word. The line prints the two values and changes neither
    store nor files. *)
Theorem dev_line_names_module_and_patch (repr_float : float → string)
    (env : Env) (left right : string) (s : State) :
  PyStr.startswith (PyStr.lower left) "dev" = true →
  PyStr.contains "|" left = false →
  PyStr.contains "|" right = false →
  ∃ module,
    last (PyStr.split " " (PyStr.strip left)) = Some module
    ∧ step repr_float env (left ++ "|" ++ right)%string s
      = Idle (say s [EDev module (PyStr.strip right)])
    ∧ PyStr.contains " " module = false
    ∧ (PyStr.contains " " (PyStr.strip left) = false →
       module = PyStr.strip left).
Proof.
  intros Hdev Hleft Hright.
  assert (PyStr.split "|" (left ++ "|" ++ right)%string = [left; right])
    as Hsplit.
  { change ("|" ++ right)%string with (String "|" right).
    by rewrite split_app, (split_no_sep _ right). }
  assert (is_dev (left ++ "|" ++ right)%string = true) as Hisdev.
  { unfold is_dev. apply andb_true_iff. split.
    - unfold PyStr.startswith in *. rewrite lower_app.
      apply PyStrFacts.prefix_app in Hdev as [t Ht]. rewrite Ht.
      apply PyStrFacts.prefix_app.
      exists (t ++ PyStr.lower ("|" ++ right))%string.
      by rewrite string_app_assoc.
    - apply PyStrFacts.contains_substring. by exists left, right. }
  destruct (step_dev_one_separator repr_float env _ left right s
              Hisdev Hsplit) as (module & Hlast & Hstep).
  exists module. split_and!; [done | done | |].
  - pose proof (split_pieces " " (PyStr.strip left)) as Hall.
    rewrite Forall_forall in Hall. apply Hall.
    apply last_Some in Hlast as [l' ->]. apply elem_of_app. right. by left.
  - intros Hnone. rewrite (split_no_sep _ _ Hnone) in Hlast.
    by injection Hlast.
Qed.

Lemma dev_line_names_module_and_patch_witness :
  PyStr.startswith (PyStr.lower "Dev ") "dev" = true
  ∧ PyStr.contains "|" "Dev " = false
  ∧ PyStr.contains "|" " add a step " = false
  ∧ ∃ module,
      step repr_scores env0 "Dev | add a step " initial
      = Idle (say initial [EDev module "add a step"])
      ∧ module = "Dev".
Proof.
  assert (PyStr.startswith (PyStr.lower "Dev ") "dev" = true) as Hd
    by reflexivity.
  assert (PyStr.contains "|" "Dev " = false) as Hl by reflexivity.
  assert (PyStr.contains "|" " add a step " = false) as Hr by reflexivity.
  split_and!; [exact Hd | exact Hl | exact Hr |].
  destruct (dev_line_names_module_and_patch repr_scores env0 "Dev "
              " add a step " initial Hd Hl Hr)
    as (module & _ & Hstep & _ & Hword).
  exists module. split; [exact Hstep | exact (Hword eq_refl)].
Defined.

(** ** Log files and ids *)

Lemma string_length_app (a b : string) :
  String.length (a ++ b)%string = String.length a + String.length b.
Proof.
  induction a as [|c a IH]; [done |].
  rewrite PyStrFacts.app_cons. simpl. by rewrite IH.
Qed.

Lemma string_app_inv_tail (a b t : string) :
  (a ++ t)%string = (b ++ t)%string → a = b.
Proof.
  revert b. induction a as [|x a IH]; intros [|y b] Heq.
  - done.
  - apply (f_equal String.length) in Heq.
    rewrite !string_length_app in Heq. simpl in Heq. lia.
  - apply (f_equal String.length) in Heq.
    rewrite !string_length_app in Heq. simpl in Heq. lia.
  - rewrite !PyStrFacts.app_cons in Heq. injection Heq as -> Heq.
    f_equal. by apply IH.
Qed.

Lemma log_name_inj (r r' : SessionRecord) :
  log_name r = log_name r' →
  PyStr.take 8 (r_id r) = PyStr.take 8 (r_id r').
Proof.
  unfold log_name. intros Heq. apply String.app_inj in Heq.
  by apply string_app_inv_tail in Heq.
Qed.

(** X8. Two records whose ids agree on their first eight characters go to
    the same log file: after both were anchored (both writes succeeding)
    the store holds both records, but the disk holds one file for them,
    and it is the dump of the later record; the earlier one is no longer
    on disk under that name. *)
Theorem ids_sharing_eight_characters_share_a_log_file (env1 env2 : Env)
    (goal1 module1 : string) (score1 : float) (justification1 : string)
    (goal2 module2 : string) (score2 : float) (justification2 : string)
    (s : State) :
  writable env1 = true →
  writable env2 = true →
  PyStr.take 8 (uuid4 env1) = PyStr.take 8 (uuid4 env2) →
  let r1 := Memory.new_record env1 goal1 module1 score1 justification1 in
  let r2 := Memory.new_record env2 goal2 module2 score2 justification2 in
  let s1 := state_of (Memory.anchor env1 goal1 module1 score1 justification1
                        s) in
  let s2 := state_of (Memory.anchor env2 goal2 module2 score2 justification2
                        s1) in
  records s2 = records s ++ [r1; r2]
  ∧ log_name r1 = log_name r2
  ∧ files s1 !! log_name r1 = Some (dump_of r1)
  ∧ files s2 = <[log_name r2 := dump_of r2]> (files s)
  ∧ files s2 !! log_name r1 = Some (dump_of r2).
Proof.
  intros Hw1 Hw2 Hpre r1 r2 s1 s2.
  assert (log_name r1 = log_name r2) as Hname.
  { unfold log_name. simpl. by rewrite Hpre. }
  subst s2 s1. rewrite !anchor_run, Hw1. simpl. rewrite Hw2. simpl.
  fold r1 r2. split_and!.
  - by rewrite <- app_assoc.
  - done.
  - apply lookup_insert_eq.
  - unfold dump_of. rewrite Hname. apply insert_insert_eq.
  - rewrite Hname. apply lookup_insert_eq.
Qed.

Lemma ids_sharing_eight_characters_share_a_log_file_witness :
  let env1 := {| uuid4 := "3f2b8c1e-0000-4000-8000-000000000001";
                 now := "2025-06-01T10:00:00"; writable := true;
                 choice := 0 |} in
  let env2 := {| uuid4 := "3f2b8c1e-ffff-4fff-bfff-ffffffffffff";
                 now := "2025-06-02T11:00:00"; writable := true;
                 choice := 0 |} in
  PyStr.take 8 (uuid4 env1) = PyStr.take 8 (uuid4 env2)
  ∧ uuid4 env1 ≠ uuid4 env2
  ∧ files (state_of (Memory.anchor env2 "b" "m" 0.5%float "j"
                       (state_of (Memory.anchor env1 "a" "m" 0.5%float "j"
                                    initial))))
    !! "andromeda_log_3f2b8c1e.json"
    = Some (dump_of (Memory.new_record env2 "b" "m" 0.5%float "j")).
Proof.
  intros env1 env2.
  assert (PyStr.take 8 (uuid4 env1) = PyStr.take 8 (uuid4 env2)) as Hpre
    by reflexivity.
  split_and!; [exact Hpre | discriminate |].
  exact (proj2 (proj2 (proj2 (proj2
           (ids_sharing_eight_characters_share_a_log_file env1 env2
              "a" "m" 0.5%float "j" "b" "m" 0.5%float "j" initial
              eq_refl eq_refl Hpre))))).
Defined.

Section Mirror.
Variable repr_float : float → string.

Lemma filed_mono (used used' : list string) (s : State) :
  used ⊆ used' → filed used s → filed used' s.
Proof.
  intros Hsub Hs r Hr. destruct (Hs r Hr) as [Hf Hu]. split; [done |].
  by apply Hsub.
Qed.

Lemma step_filed (env : Env) (cmd : string) (used : list string)
    (s : State) :
  writable env = true →
  PyStr.take 8 (uuid4 env) ∉ used →
  filed used s →
  NoDup (r_id <$> records s) →
  let s' := router_state (step repr_float env cmd s) in
  filed (used ++ [PyStr.take 8 (uuid4 env)]) s'
  ∧ NoDup (r_id <$> records s').
Proof.
  intros Hw Hnew Hs Hnodup s'. subst s'.
  assert (used ⊆ used ++ [PyStr.take 8 (uuid4 env)]) as Hsub
    by (intros x Hx; apply elem_of_app; by left).
  destruct (is_default cmd) eqn:Hd.
  - split.
    + intros r Hr. rewrite step_records, Hd in Hr.
      rewrite step_files, Hd, Hw. simpl.
      apply elem_of_app in Hr as [Hr|Hr].
      * destruct (Hs r Hr) as [Hf Hu]. split; [|by apply Hsub].
        rewrite lookup_insert_ne; [done |].
        intros Heq. apply log_name_inj in Heq. simpl in Heq.
        apply Hnew. by rewrite Heq.
      * apply list_elem_of_singleton in Hr as ->. split.
        -- apply lookup_insert_eq.
        -- apply elem_of_app. right. by left.
    + rewrite step_records, Hd, fmap_app. apply NoDup_app.
      split_and!; [done | | apply NoDup_singleton].
      intros x Hx Hx'. apply list_elem_of_singleton in Hx'. subst x.
      apply list_elem_of_fmap in Hx as (r & Hid & Hr).
      destruct (Hs r Hr) as [_ Hu]. apply Hnew.
      simpl in Hid. by rewrite Hid.
  - split.
    + apply (filed_mono used); [done |].
      intros r Hr. rewrite step_records, Hd, app_nil_r in Hr.
      rewrite step_files, Hd. simpl. by apply Hs.
    + by rewrite step_records, Hd, app_nil_r.
Qed.

Lemma run_filed (inputs : list (Env * string)) (used : list string)
    (s : State) :
  Forall (λ i, writable i.1 = true) inputs →
  NoDup ((λ i, PyStr.take 8 (uuid4 i.1)) <$> inputs) →
  (∀ i, i ∈ inputs → PyStr.take 8 (uuid4 i.1) ∉ used) →
  filed used s →
  NoDup (r_id <$> records s) →
  let s' := router_state (run repr_float inputs s) in
  filed (used ++ ((λ i, PyStr.take 8 (uuid4 i.1)) <$> inputs)) s'
  ∧ NoDup (r_id <$> records s').
Proof.
  revert used s.
  induction inputs as [|[env cmd] inputs IH];
    intros used s Hw Hdistinct Hfresh Hs Hnodup; simpl.
  - split; [|done]. by rewrite app_nil_r.
  - apply Forall_cons in Hw as [Hw Hws]. simpl in Hw.
    rewrite fmap_cons in Hdistinct. simpl in Hdistinct.
    apply NoDup_cons in Hdistinct as [Hhead Hdistinct].
    assert (PyStr.take 8 (uuid4 env) ∉ used) as Hnew
      by (apply (Hfresh (env, cmd)); by left).
    destruct (step_filed env cmd used s Hw Hnew Hs Hnodup) as [Hs1 Hn1].
    assert (used ++ [PyStr.take 8 (uuid4 env)]
            ⊆ used ++ PyStr.take 8 (uuid4 env)
                      :: ((λ i, PyStr.take 8 (uuid4 i.1)) <$> inputs))
      as Hsub.
    { intros x [Hx|Hx]%elem_of_app; apply elem_of_app; [by left |].
      right. apply list_elem_of_singleton in Hx as ->. by left. }
    destruct (step repr_float env cmd s) as [s1|s1|e s1]; simpl in *.
    + destruct (IH (used ++ [PyStr.take 8 (uuid4 env)]) s1)
        as [Hfin Hnfin]; try done.
      { intros i Hi [Hu|Hu]%elem_of_app.
        - apply (Hfresh i); [by right | done].
        - apply list_elem_of_singleton in Hu. apply Hhead.
          rewrite <- Hu. apply list_elem_of_fmap. by exists i. }
      split; [|done]. by rewrite <- app_assoc in Hfin.
    + split; [|done]. by apply (filed_mono _ _ _ Hsub).
    + split; [|done]. by apply (filed_mono _ _ _ Hsub).
Qed.

Lemma step_files_origin (env : Env) (cmd : string) (s0 s : State) :
  (∀ fn f, files s !! fn = Some f →
           files s0 !! fn = Some f
           ∨ ∃ r, r ∈ records s ∧ fn = log_name r ∧ f = dump_of r) →
  ∀ fn f,
    files (router_state (step repr_float env cmd s)) !! fn = Some f →
    files s0 !! fn = Some f
    ∨ ∃ r, r ∈ records (router_state (step repr_float env cmd s))
           ∧ fn = log_name r ∧ f = dump_of r.
Proof.
  intros Hs fn f. rewrite step_files, step_records.
  destruct (is_default cmd); simpl.
  - destruct (writable env).
    + destruct (decide (fn = log_name (anchored repr_float env)))
        as [->|Hne].
      * rewrite lookup_insert_eq. intros [= <-]. right.
        eexists. split_and!; try done. apply elem_of_app. right. by left.
      * rewrite lookup_insert_ne by done. intros Hf.
        destruct (Hs fn f Hf) as [?|(r & Hr & ? & ?)]; [by left |].
        right. exists r. split_and!; try done. apply elem_of_app. by left.
    + intros Hf. destruct (Hs fn f Hf) as [?|(r & Hr & ? & ?)]; [by left |].
      right. exists r. split_and!; try done. apply elem_of_app. by left.
  - rewrite app_nil_r. apply Hs.
Qed.

Lemma run_files_origin (inputs : list (Env * string)) (s0 s : State) :
  (∀ fn f, files s !! fn = Some f →
           files s0 !! fn = Some f
           ∨ ∃ r, r ∈ records s ∧ fn = log_name r ∧ f = dump_of r) →
  ∀ fn f,
    files (router_state (run repr_float inputs s)) !! fn = Some f →
    files s0 !! fn = Some f
    ∨ ∃ r, r ∈ records (router_state (run repr_float inputs s))
           ∧ fn = log_name r ∧ f = dump_of r.
Proof.
  revert s. induction inputs as [|[env cmd] inputs IH]; intros s Hs; simpl;
    [done |].
  pose proof (step_files_origin env cmd s0 s Hs) as Hstep.
  destruct (step repr_float env cmd s) as [s1|s1|e s1]; simpl in *;
    [by apply IH | done | done].
Qed.

(** X9. The program starts with an empty store, whatever log files the
    working directory already holds. When every write succeeds and the
    uuids drawn differ in their first eight characters, then after any run
    of the loop every stored record is found on disk, under the name made
    from its id, as its own two-space dump, and no two stored records have
    the same id; and every log file on disk is either a file that was
    there at the start, unchanged, or the dump of a stored record under
    the name made from that record's id. *)
Theorem every_record_has_its_log_file (inputs : list (Env * string))
    (s0 : State) :
  records s0 = [] →
  Forall (λ i, writable i.1 = true) inputs →
  NoDup ((λ i, PyStr.take 8 (uuid4 i.1)) <$> inputs) →
  let s := router_state (run repr_float inputs s0) in
  (∀ r, r ∈ records s → files s !! log_name r = Some (dump_of r))
  ∧ NoDup (r_id <$> records s)
  ∧ (∀ fn f, files s !! fn = Some f →
             files s0 !! fn = Some f
             ∨ ∃ r, r ∈ records s ∧ fn = log_name r ∧ f = dump_of r).
Proof.
  intros Hempty Hw Hdistinct s.
  destruct (run_filed inputs [] s0 Hw Hdistinct) as [Hfiled Hnodup].
  - intros i _. apply not_elem_of_nil.
  - intros r Hr. rewrite Hempty in Hr. by apply elem_of_nil in Hr.
  - rewrite Hempty. apply NoDup_nil_2.
  - split_and!; [|done|].
    + intros r Hr. by destruct (Hfiled r Hr).
    + apply run_files_origin. intros fn f Hf. by left.
Qed.

End Mirror.

Lemma every_record_has_its_log_file_witness :
  let env1 := {| uuid4 := "0a1b2c3d-1111-4111-8111-111111111111";
                 now := "2025-06-02T08:00:00"; writable := true;
                 choice := 1 |} in
  let inputs := [(env0, "teach me rocq"); (env1, "and some python")] in
  let old := {| r_id := "3f2b8c1e-old"; r_timestamp := "2024-01-01T00:00:00";
                r_goal := "an earlier session"; r_module := "quiz.kernel";
                r_score := 0.83%float; r_justification := "old" |} in
  let s0 := {| records := [];
               files := {[ "andromeda_log_77777777.json" := dump_of old ]};
               console := [] |} in
  records s0 = []
  ∧ Forall (λ i, writable i.1 = true) inputs
  ∧ NoDup ((λ i, PyStr.take 8 (uuid4 i.1)) <$> inputs)
  ∧ files (router_state (run repr_scores inputs s0))
    !! "andromeda_log_0a1b2c3d.json"
    = Some (dump_of (anchored repr_scores env1)).
Proof.
  intros env1 inputs old s0.
  assert (records s0 = []) as Hempty by reflexivity.
  assert (Forall (λ i, writable i.1 = true) inputs) as Hw
    by (by repeat constructor).
  assert (NoDup ((λ i, PyStr.take 8 (uuid4 i.1)) <$> inputs)) as Hd
    by (by apply (bool_decide_unpack _)).
  split_and!; [exact Hempty | exact Hw | exact Hd |].
  apply (proj1 (every_record_has_its_log_file repr_scores inputs s0
                  Hempty Hw Hd)
           (anchored repr_scores env1)).
  replace (records (router_state (run repr_scores inputs s0)))
    with [anchored repr_scores env0; anchored repr_scores env1]
    by reflexivity.
  apply elem_of_cons. right. apply elem_of_cons. by left.
Defined.

(** ** The rows of the flow map *)

(** X10. The date column of a row of the flow map is the timestamp of the
    record up to its first 'T'; a timestamp without a 'T' is shown whole.
    Printing a row never fails, whatever the timestamp (the empty one
    included). *)
Theorem map_row_shows_text_before_first_T (r : SessionRecord) (s : State) :
  (∀ d rest,
     PyStr.contains "T" d = false →
     r_timestamp r = (d ++ "T" ++ rest)%string →
     map_row r s = Ok tt (say s [EMapRow d (r_module r)]))
  ∧ (PyStr.contains "T" (r_timestamp r) = false →
     map_row r s = Ok tt (say s [EMapRow (r_timestamp r) (r_module r)]))
  ∧ (∃ d, map_row r s = Ok tt (say s [EMapRow d (r_module r)])).
Proof.
  split_and!.
  - intros d rest Hd Hts. rewrite map_row_run. unfold row_of, date_of.
    rewrite Hts. change ("T" ++ rest)%string with (String "T" rest).
    by rewrite split_app.
  - intros Hnone. rewrite map_row_run. unfold row_of, date_of.
    by rewrite split_no_sep.
  - eexists. apply map_row_run.
Qed.

Lemma map_row_shows_text_before_first_T_witness :
  PyStr.contains "T" "2025-06-01" = false
  ∧ map_row (anchored repr_scores env0) initial
    = Ok tt (say initial [EMapRow "2025-06-01" "flow.study"]).
Proof.
  assert (PyStr.contains "T" "2025-06-01" = false) as Hd by reflexivity.
  split; [exact Hd |].
  exact (proj1 (map_row_shows_text_before_first_T
                  (anchored repr_scores env0) initial)
           "2025-06-01" "10:15:30.123456" Hd eq_refl).
Defined.

(** ** The two branches of launch *)

(** X11. For any match, [launch] after matching prints the match line,
    then (only when the score is below 0.9) the tutor preview, then the
    trace and sandbox lines, anchors the record, and prints the export,
    reflection and mutation lines. The trace, sandbox, reflection and
    mutation lines always name the primary module, also when the record
    that is stored carries the backup module; and the mutation line
    reports low confidence only when [score < 0.85], so a score that
    fails the 0.9 test without being below 0.85 (0.87, say) stores the
    backup module and reports high confidence. A failed write ends the
    call after the [ANCHOR] line. *)
Theorem launch_matched_trace (env : Env) (goal : string) (m : Match)
    (s : State) :
  AndromedaKernel.launch_matched env goal m s
  = (if writable env
     then Ok tt (say (persist (remember s (matched_record env goal m))
                        (matched_record env goal m))
                     (matched_head env goal m ++ matched_tail env goal m))
     else Raise OSError (say (remember s (matched_record env goal m))
                             (matched_head env goal m)))
  ∧ ((0.9 <=? score m)%float = false →
     (score m <? 0.85)%float = false →
     r_module (matched_record env goal m) = backup_module m
     ∧ last (matched_tail env goal m)
       = Some (EMutate (primary_module m) false)).
Proof.
  split.
  - unfold AndromedaKernel.launch_matched, trace_execution, sandbox_bridge,
      tutor_preview, reflect_outcome, meta_mutate, matched_head,
      matched_tail, matched_record, matched_module.
    destruct (0.9 <=? score m)%float;
      repeat (rewrite bind_run || rewrite print_run);
      rewrite anchor_run;
      destruct (writable env);
      repeat (rewrite bind_run || rewrite print_run);
      unfold say, persist, remember; simpl; rewrite <- ?app_assoc;
      reflexivity.
  - intros Hhi Hlow.
    unfold matched_record, matched_module, matched_tail. simpl.
    by rewrite Hhi, Hlow.
Qed.

Lemma launch_matched_trace_witness :
  let m := {| primary_module := "flow.study"; backup_module := "quiz.kernel";
              score := 0.87%float; justification := "close call" |} in
  (0.9 <=? score m)%float = false
  ∧ (score m <? 0.85)%float = false
  ∧ r_module (matched_record env0 "goal" m) = "quiz.kernel"
  ∧ last (matched_tail env0 "goal" m) = Some (EMutate "flow.study" false).
Proof.
  intros m.
  assert ((0.9 <=? score m)%float = false) as H1 by reflexivity.
  assert ((score m <? 0.85)%float = false) as H2 by reflexivity.
  split_and!; [exact H1 | exact H2 | |].
  - exact (proj1 (proj2 (launch_matched_trace env0 "goal" m initial)
                    H1 H2)).
  - exact (proj2 (proj2 (launch_matched_trace env0 "goal" m initial)
                    H1 H2)).
Defined.

(** ** Queries *)

Lemma is_substring_trans (a b c : string) :
  is_substring a b → is_substring b c → is_substring a c.
Proof.
  intros (u & v & ->) (u' & v' & ->).
  exists (u' ++ u)%string, (v ++ v')%string.
  by rewrite !string_app_assoc.
Qed.

Lemma contains_empty (s : string) : PyStr.contains "" s = true.
Proof. apply PyStrFacts.contains_substring. by exists "", s. Qed.

(** X12. Recall narrows as the query grows: when one query occurs inside
    another (letter case apart), every record the longer query selects is
    selected by the shorter one, in the same order. The empty query
    occurs in every goal, so it selects the whole store. *)
Theorem longer_query_narrows_recall (q1 q2 : string)
    (rs : list SessionRecord) :
  is_substring (PyStr.lower q1) (PyStr.lower q2) →
  Memory.matches q2 rs `sublist_of` Memory.matches q1 rs
  ∧ (∀ r, r ∈ Memory.matches q2 rs → r ∈ Memory.matches q1 rs)
  ∧ Memory.matches "" rs = rs.
Proof.
  intros Hsub.
  assert (Memory.matches q2 rs `sublist_of` Memory.matches q1 rs) as Hsl.
  { unfold Memory.matches. induction rs as [|r rs IH]; simpl; [done |].
    destruct (PyStr.contains (PyStr.lower q2) (PyStr.lower (r_goal r)))
      eqn:H2.
    - apply PyStrFacts.contains_substring in H2.
      pose proof (is_substring_trans _ _ _ Hsub H2) as H1.
      apply PyStrFacts.contains_substring in H1. rewrite H1.
      by apply sublist_skip.
    - destruct (PyStr.contains (PyStr.lower q1) (PyStr.lower (r_goal r)));
        [by apply sublist_cons | done]. }
  split_and!; [done | |].
  - intros r Hr. by eapply elem_of_sublist.
  - clear Hsl. unfold Memory.matches. change (PyStr.lower "") with "".
    induction rs as [|r rs IH]; simpl; [done |].
    by rewrite contains_empty, IH.
Qed.

Lemma longer_query_narrows_recall_witness :
  is_substring (PyStr.lower "CHAT") (PyStr.lower "educational Chatbot")
  ∧ (anchored repr_scores env0
     ∈ Memory.matches "educational Chatbot" [anchored repr_scores env0] →
     anchored repr_scores env0
     ∈ Memory.matches "CHAT" [anchored repr_scores env0]).
Proof.
  assert (is_substring (PyStr.lower "CHAT")
            (PyStr.lower "educational Chatbot")) as Hsub
    by (by exists "educational ", "bot").
  split; [exact Hsub |].
  exact (proj1 (proj2 (longer_query_narrows_recall "CHAT"
                         "educational Chatbot" [anchored repr_scores env0]
                         Hsub))
           (anchored repr_scores env0)).
Defined.

(** ** Letter case *)

Lemma lower_char_idemp (c : ascii) :
  PyStr.lower_char (PyStr.lower_char c) = PyStr.lower_char c.
Proof. by destruct c as [[] [] [] [] [] [] [] []]. Qed.

Lemma lower_char_bar (c : ascii) :
  Ascii.eqb (PyStr.lower_char c) "|" = Ascii.eqb c "|".
Proof. by destruct c as [[] [] [] [] [] [] [] []]. Qed.

Lemma lower_idemp (s : string) : PyStr.lower (PyStr.lower s) = PyStr.lower s.
Proof.
  induction s as [|c s IH]; [done |]. simpl.
  by rewrite lower_char_idemp, IH.
Qed.

Lemma contains_bar_lower (s : string) :
  PyStr.contains "|" (PyStr.lower s) = PyStr.contains "|" s.
Proof.
  induction s as [|c s IH]; [done |]. simpl PyStr.lower.
  by rewrite !contains_char_cons, lower_char_bar, IH.
Qed.

Lemma branch_of_lower (cmd : string) :
  branch_of (PyStr.lower cmd) = branch_of cmd.
Proof.
  unfold branch_of, is_dev. by rewrite lower_idemp, contains_bar_lower.
Qed.

Lemma detect_mode_lower (prompt : string) :
  detect_mode (PyStr.lower prompt) = detect_mode prompt.
Proof. unfold detect_mode, any_in. simpl. by rewrite lower_idemp. Qed.

(** X13. The letter case of a line never changes what is stored: a line
    and its lower-cased form are taken by the same branch of the loop and
    leave the same records and the same log files. For a free-text line
    the two are handled identically, output included, because the mode
    keywords are looked up in the lower-cased prompt and nothing else of
    the prompt is used. *)
Theorem letter_case_never_changes_what_is_stored
    (repr_float : float → string) (env : Env) (cmd : string) (s : State) :
  branch_of (PyStr.lower cmd) = branch_of cmd
  ∧ records (router_state (step repr_float env (PyStr.lower cmd) s))
    = records (router_state (step repr_float env cmd s))
  ∧ files (router_state (step repr_float env (PyStr.lower cmd) s))
    = files (router_state (step repr_float env cmd s))
  ∧ detect_mode (PyStr.lower cmd) = detect_mode cmd
  ∧ (is_default cmd = true →
     step repr_float env (PyStr.lower cmd) s = step repr_float env cmd s).
Proof.
  pose proof (branch_of_lower cmd) as Hb.
  assert (is_default (PyStr.lower cmd) = is_default cmd) as Hd
    by (unfold is_default; by rewrite Hb).
  split_and!; [done | | | apply detect_mode_lower |].
  - by rewrite !step_records, Hd.
  - by rewrite !step_files, Hd.
  - intros Hdef.
    pose proof (step_by_branch repr_float env cmd s) as H1.
    pose proof (step_by_branch repr_float env (PyStr.lower cmd) s) as H2.
    rewrite Hb in H2. unfold is_default in Hdef.
    destruct (branch_of cmd); try discriminate Hdef.
    rewrite H1, H2. unfold launch_head. by rewrite detect_mode_lower.
Qed.

Lemma letter_case_never_changes_what_is_stored_witness :
  is_default "Plan my TEST week" = true
  ∧ step repr_scores env0 (PyStr.lower "Plan my TEST week") initial
    = step repr_scores env0 "Plan my TEST week" initial.
Proof.
  assert (is_default "Plan my TEST week" = true) as Hd by reflexivity.
  split; [exact Hd |].
  exact (proj2 (proj2 (proj2 (proj2
           (letter_case_never_changes_what_is_stored repr_scores env0
              "Plan my TEST week" initial)))) Hd).
Defined.

(** ** The recall line *)

Lemma split1_app (sep : ascii) (w q : string) :
  PyStr.contains (String sep "") w = false →
  PyStr.split1 sep (w ++ String sep q)%string = [w; q].
Proof.
  induction w as [|c w IH].
  - intros _. rewrite PyStrFacts.app_nil. simpl. by rewrite Ascii.eqb_refl.
  - rewrite contains_char_cons. intros [Hc Hw]%orb_false_iff.
    rewrite PyStrFacts.app_cons. simpl. by rewrite Hc, IH.
Qed.

Lemma lower_char_space (c : ascii) :
  Ascii.eqb (PyStr.lower_char c) " " = Ascii.eqb c " ".
Proof. by destruct c as [[] [] [] [] [] [] [] []]. Qed.

Lemma contains_space_lower (s : string) :
  PyStr.contains " " (PyStr.lower s) = PyStr.contains " " s.
Proof.
  induction s as [|c s IH]; [done |]. simpl PyStr.lower.
  by rewrite !contains_char_cons, lower_char_space, IH.
Qed.

(** X14. On a line made of the word [recall] in any letter case, one
    space, and a text, the query handed to [recall] is that text exactly
    as typed: nothing is trimmed, so further spaces belong to the query,
    and the empty text is a query too. The line prints the heading with
    the query and then the selection, and leaves store and files alone. *)
Theorem recall_line_query_is_text_after_first_space
    (repr_float : float → string) (env : Env) (w q : string) (s : State) :
  PyStr.lower w = "recall" →
  branch_of (w ++ " " ++ q)%string = BRecall
  ∧ step repr_float env (w ++ " " ++ q)%string s
    = Idle (say s (ERecallSearch q
                   :: recall_report (Memory.matches q (records s)))).
Proof.
  intros Hw.
  assert (PyStr.contains " " w = false) as Hnone
    by (by rewrite <- contains_space_lower, Hw).
  assert (branch_of (w ++ " " ++ q)%string = BRecall) as Hb.
  { unfold branch_of, PyStr.startswith.
    change (" " ++ q)%string with (String " " q).
    rewrite lower_app, Hw.
    assert (String.prefix "recall "
              ("recall" ++ PyStr.lower (String " " q))%string = true) as ->
      by (apply PyStrFacts.prefix_app; by exists (PyStr.lower q)).
    reflexivity. }
  split; [done |].
  pose proof (step_by_branch repr_float env (w ++ " " ++ q)%string s)
    as Hstep.
  rewrite Hb in Hstep. destruct Hstep as (q' & Hlast & ->).
  change (" " ++ q)%string with (String " " q) in Hlast.
  rewrite split1_app in Hlast by done. by injection Hlast as <-.
Qed.

Lemma recall_line_query_is_text_after_first_space_witness :
  PyStr.lower "ReCall" = "recall"
  ∧ step repr_scores env0 "ReCall  Build " initial
    = Idle (say initial [ERecallSearch " Build "; ERecallNone]).
Proof.
  assert (PyStr.lower "ReCall" = "recall") as Hw by reflexivity.
  split; [exact Hw |].
  exact (proj2 (recall_line_query_is_text_after_first_space repr_scores
                  env0 "ReCall" " Build " initial Hw)).
Defined.

(** ** Anchor, then look *)

(** X15. A record that was just anchored is found again. After
    [anchor(goal, ...)], a recall whose query occurs in [goal] (letter
    case apart) selects what it selected before followed by the new
    record; a recall whose query does not occur in it selects what it
    selected before; and the last row of the flow map is the row of the
    new record. This holds also when the write of the log file failed. *)
Theorem anchored_record_is_recalled (env : Env) (goal module : string)
    (score : float) (justification query : string) (s : State) :
  let r := Memory.new_record env goal module score justification in
  let s' := state_of (Memory.anchor env goal module score justification s) in
  Memory.matches query (records s')
  = Memory.matches query (records s)
    ++ (if PyStr.contains (PyStr.lower query) (PyStr.lower goal)
        then [r] else [])
  ∧ last (last_n 5 (records s')) = Some r
  ∧ last (row_of <$> last_n 5 (records s')) = Some (row_of r)
  ∧ (goal_matches query r → last (Memory.matches query (records s')) = Some r).
Proof.
  intros r s'. subst s'. rewrite anchor_records. fold r.
  assert (Memory.matches query (records s ++ [r])
          = Memory.matches query (records s)
            ++ (if PyStr.contains (PyStr.lower query) (PyStr.lower goal)
                then [r] else [])) as Hm.
  { unfold Memory.matches. rewrite filter_app_bool. simpl.
    by destruct (PyStr.contains _ _). }
  assert (last (last_n 5 (records s ++ [r])) = Some r) as Hl.
  { unfold last_n. rewrite length_app. simpl.
    rewrite drop_app_le by lia. by rewrite last_snoc. }
  split_and!; [done | done | |].
  - by rewrite fmap_last, Hl.
  - intros Hg. rewrite Hm. unfold goal_matches in Hg.
    apply PyStrFacts.contains_substring in Hg. simpl in Hg. rewrite Hg.
    by rewrite last_snoc.
Qed.

Lemma anchored_record_is_recalled_witness :
  goal_matches "ROCQ" (Memory.new_record env0 "learn Rocq" "flow.study"
                         0.91%float "why")
  ∧ last (Memory.matches "ROCQ"
            (records (state_of (Memory.anchor env0 "learn Rocq" "flow.study"
                                  0.91%float "why" initial))))
    = Some (Memory.new_record env0 "learn Rocq" "flow.study" 0.91%float
              "why").
Proof.
  assert (goal_matches "ROCQ" (Memory.new_record env0 "learn Rocq"
                                 "flow.study" 0.91%float "why")) as Hg
    by (by exists "learn ", "").
  split; [exact Hg |].
  exact (proj2 (proj2 (proj2
           (anchored_record_is_recalled env0 "learn Rocq" "flow.study"
              0.91%float "why" "ROCQ" initial))) Hg).
Defined.

(** ** What the loop never prints *)

Section Quiet.
Variable repr_float : float → string.

Lemma step_output (env : Env) (cmd : string) (s : State) :
  ∃ es, console (router_state (step repr_float env cmd s)) = console s ++ es
        ∧ Forall (λ e, is_low_score_output e = false) es.
Proof.
  pose proof (step_by_branch repr_float env cmd s) as Hstep.
  destruct (branch_of cmd).
  - exists []. rewrite Hstep. simpl. by rewrite app_nil_r.
  - destruct Hstep as (q & _ & ->). eexists. split; [reflexivity |].
    constructor; [done |]. unfold recall_report.
    destruct (Memory.matches q (records s)) as [|m ms];
      [by repeat constructor |].
    apply Forall_fmap, Forall_forall. by intros r _.
  - rewrite Hstep. eexists. split; [reflexivity |].
    constructor; [done |]. apply Forall_app. split.
    + apply Forall_fmap, Forall_forall. by intros r _.
    + by repeat constructor.
  - destruct Hstep as (p & _ & ->). eexists. split; [reflexivity |].
    by repeat constructor.
  - rewrite Hstep. eexists. split; [reflexivity |]. by repeat constructor.
  - destruct Hstep as [(a & b & m & _ & _ & ->)|[_ ->]].
    + eexists. split; [reflexivity |]. by repeat constructor.
    + exists []. simpl. by rewrite app_nil_r.
  - rewrite Hstep. destruct (writable env); eexists;
      (split; [reflexivity |]); by repeat constructor.
Qed.

(** X16. Over any run of the loop the branch of [launch] for scores below
    0.9 stays unused: the tutor preview is never printed, and the
    mutation line never reports low confidence. Every line only adds to
    the output; nothing printed earlier is changed. *)
Theorem low_score_output_is_never_printed (inputs : list (Env * string))
    (s : State) :
  Forall (λ e, is_low_score_output e = false) (console s) →
  Forall (λ e, is_low_score_output e = false)
         (console (router_state (run repr_float inputs s)))
  ∧ console s `prefix_of` console (router_state (run repr_float inputs s)).
Proof.
  revert s. induction inputs as [|[env cmd] inputs IH]; intros s Hs; simpl;
    [done |].
  destruct (step_output env cmd s) as (es & Hes & Hquiet).
  assert (Forall (λ e, is_low_score_output e = false)
            (console (router_state (step repr_float env cmd s)))) as Hs1
    by (rewrite Hes; by apply Forall_app).
  assert (console s
          `prefix_of` console (router_state (step repr_float env cmd s)))
    as Hp by (rewrite Hes; by apply prefix_app_r).
  destruct (step repr_float env cmd s) as [s1|s1|e s1]; simpl in *;
    [|done|done].
  destruct (IH s1 Hs1) as [Hfin Hpre]. split; [done | by etrans].
Qed.

End Quiet.

Lemma low_score_output_is_never_printed_witness :
  Forall (λ e, is_low_score_output e = false) (console initial)
  ∧ Forall (λ e, is_low_score_output e = false)
      (console (router_state
                  (run repr_scores
                     [(env0, "please debug my plan"); (env0, "map")]
                     initial))).
Proof.
  assert (Forall (λ e, is_low_score_output e = false) (console initial))
    as Hs by constructor.
  split; [exact Hs |].
  exact (proj1 (low_score_output_is_never_printed repr_scores
                  [(env0, "please debug my plan"); (env0, "map")]
                  initial Hs)).
Defined.
